(** * boutique_ml-service: the vector index and the recommendation engine

    A shallow embedding of [app/services/faiss_service.py] and
    [app/services/recommendation_service.py], with the properties of the
    design document stated over it.

    Layout:
    - [Py]: the pieces of the Python runtime the two services rely on
      (exceptions, insertion-ordered dicts, slices, stable sorting, floats);
    - [Faiss]: the part of the faiss library the vector index calls;
    - [FaissSvc]: class [FAISSService];
    - [RecSvc]: class [RecommendationService]. *)

From Stdlib Require Import ZArith Floats Lia.
From stdpp Require Import base list strings pretty.

Open Scope Z_scope.

(* ===================================================================== *)
(** * The Python runtime                                                  *)
(* ===================================================================== *)

Module Py.

(** Exceptions raised by the services or by the libraries they call. *)
Inductive exn : Type :=
| ValueError (msg : string)
| AssertionError
| RuntimeError
| ZeroDivisionError
| KeyError (key : string)
| AttributeError
| UnpicklingError.

(** The outcome of a call: a returned value or a raised exception. *)
Inductive result (A : Type) : Type :=
| Return (a : A)
| Raise (e : exn).
Arguments Return {A} a.
Arguments Raise {A} e.

Definition bind {A B} (m : result A) (k : A -> result B) : result B :=
  match m with
  | Return a => k a
  | Raise e => Raise e
  end.

(** [try: body except Exception: handler]. *)
Definition try_except {A} (body : result A) (handler : exn -> result A) : result A :=
  match body with
  | Return a => Return a
  | Raise e => handler e
  end.

Definition raised {A} (r : result A) : Prop := exists e, r = Raise e.

Fixpoint mapM {A B} (f : A -> result B) (l : list A) : result (list B) :=
  match l with
  | [] => Return []
  | x :: l' =>
      bind (f x) (fun y => bind (mapM f l') (fun ys => Return (y :: ys)))
  end.

(** ** Dicts

    A Python dict keeps its keys in insertion order: assigning to a key that
    is present replaces the value in place, assigning to a new key appends. *)
Section Dict.
Context {K V : Type} `{EqDecision K}.

Definition dict : Type := list (K * V).

Fixpoint dict_get (k : K) (d : dict) : option V :=
  match d with
  | [] => None
  | (k', v) :: d' => if decide (k' = k) then Some v else dict_get k d'
  end.

Fixpoint dict_set (k : K) (v : V) (d : dict) : dict :=
  match d with
  | [] => [(k, v)]
  | (k', v') :: d' =>
      if decide (k' = k) then (k, v) :: d' else (k', v') :: dict_set k v d'
  end.

(** [k in d] *)
Definition dict_mem (k : K) (d : dict) : bool :=
  match dict_get k d with Some _ => true | None => false end.

(** [d.values()] *)
Definition dict_values (d : dict) : list V := d.*2.

Lemma dict_get_set (k k' : K) (v : V) (d : dict) :
  dict_get k' (dict_set k v d) = if decide (k = k') then Some v else dict_get k' d.
Proof.
  induction d as [|[k0 v0] d IH]; simpl.
  - destruct (decide (k = k')); reflexivity.
  - destruct (decide (k0 = k)) as [->|Hne]; simpl.
    + destruct (decide (k = k')); reflexivity.
    + rewrite IH. destruct (decide (k0 = k')) as [->|]; [|reflexivity].
      destruct (decide (k = k')); [congruence | reflexivity].
Qed.

Lemma dict_get_set_eq (k : K) (v : V) (d : dict) :
  dict_get k (dict_set k v d) = Some v.
Proof. rewrite dict_get_set. destruct (decide (k = k)); congruence. Qed.

Lemma dict_get_set_ne (k k' : K) (v : V) (d : dict) :
  k <> k' -> dict_get k' (dict_set k v d) = dict_get k' d.
Proof. intros. rewrite dict_get_set. destruct (decide (k = k')); congruence. Qed.

End Dict.
Arguments dict : clear implicits.

(** ** Slices

    [l[start:stop]] for integer bounds: a negative bound counts from the end
    and both bounds are clipped to the list. *)
Definition slice_bound (len i : Z) : Z :=
  if i <? 0 then Z.max (i + len) 0 else Z.min i len.

Definition slice {A} (l : list A) (start stop : Z) : list A :=
  let len := Z.of_nat (length l) in
  let lo := slice_bound len start in
  let hi := slice_bound len stop in
  take (Z.to_nat (hi - lo)) (drop (Z.to_nat lo) l).

(** [l[:stop]] *)
Definition slice_to {A} (l : list A) (stop : Z) : list A := slice l 0 stop.

(** ** Sorting

    [sorted(l, key=key, reverse=True)]: a stable sort, largest key first;
    elements whose keys compare equal keep their order.  [lt] is the [<] of
    the key type, which the sort assumes to be a total order. *)
Section Sorted.
Context {A C : Type} (key : A -> C) (lt : C -> C -> bool).

Fixpoint insert_desc (x : A) (l : list A) : list A :=
  match l with
  | [] => [x]
  | y :: l' => if lt (key x) (key y) then y :: insert_desc x l' else x :: l
  end.

Definition sorted_desc (l : list A) : list A := foldr insert_desc [] l.

Fixpoint insert_asc (x : A) (l : list A) : list A :=
  match l with
  | [] => [x]
  | y :: l' => if lt (key y) (key x) then y :: insert_asc x l' else x :: l
  end.

Definition sorted_asc (l : list A) : list A := foldr insert_asc [] l.

Lemma length_insert_desc x l : length (insert_desc x l) = S (length l).
Proof. induction l as [|y l IH]; simpl; [reflexivity|]. destruct (lt _ _); simpl; congruence. Qed.

Lemma length_sorted_desc l : length (sorted_desc l) = length l.
Proof. induction l as [|x l IH]; simpl; [reflexivity|]. rewrite length_insert_desc. congruence. Qed.

Lemma length_insert_asc x l : length (insert_asc x l) = S (length l).
Proof. induction l as [|y l IH]; simpl; [reflexivity|]. destruct (lt _ _); simpl; congruence. Qed.

Lemma length_sorted_asc l : length (sorted_asc l) = length l.
Proof. induction l as [|x l IH]; simpl; [reflexivity|]. rewrite length_insert_asc. congruence. Qed.

End Sorted.

(** [max(l)] over integers, for a non-empty [l]. *)
Definition max_int (l : list Z) : result Z :=
  match l with
  | [] => Raise (ValueError "max() arg is an empty sequence")
  | x :: l' => Return (foldl Z.max x l')
  end.

(** Truth value of an optional string: [None] and the empty string are false. *)
Definition truthy (s : option string) : bool :=
  match s with
  | Some s => negb (bool_decide (s = ""))
  | None => false
  end.

(** ** Floats

    The arithmetic of Python's [float] (and of numpy's [float32], reached
    through [f_to_f32]) is kept behind an interface: the properties below
    hold for whatever arithmetic implements it. *)
Class Float (F : Type) : Type := {
  f_of_int : Z -> F;            (* float(i) *)
  f_add : F -> F -> F;
  f_sub : F -> F -> F;
  f_mul : F -> F -> F;
  f_div : F -> F -> F;          (* the quotient, for a non-zero divisor *)
  f_ltb : F -> F -> bool;       (* x < y *)
  f_is_zero : F -> bool;        (* x == 0 *)
  f_to_f32 : F -> F             (* numpy.float32(x), read back as a float *)
}.

(** [x / y] on floats raises on a zero divisor. *)
Definition truediv `{Float F} (x y : F) : result F :=
  if f_is_zero y then Raise ZeroDivisionError else Return (f_div x y).

(** [a / b] on integers: true division, a float. *)
Definition int_truediv `{Float F} (a b : Z) : result F :=
  if b =? 0 then Raise ZeroDivisionError else Return (f_div (f_of_int a) (f_of_int b)).

(** IEEE 754 binary64, the arithmetic CPython and numpy run on. *)
Definition float_of_Z (z : Z) : float :=
  match z with
  | Z0 => PrimFloat.zero
  | Zpos _ => PrimFloat.of_uint63 (Uint63.of_Z z)
  | Zneg p => PrimFloat.opp (PrimFloat.of_uint63 (Uint63.of_Z (Zpos p)))
  end.

Definition round_f32 (x : float) : float :=
  match Prim2SF x with
  | S754_finite s m e =>
      SF2Prim (binary_normalize 24 128 (cond_Zopp s (Zpos m)) e s)
  | _ => x
  end.

#[export] Instance binary64 : Float float := {
  f_of_int := float_of_Z;
  f_add := PrimFloat.add;
  f_sub := PrimFloat.sub;
  f_mul := PrimFloat.mul;
  f_div := PrimFloat.div;
  f_ltb := PrimFloat.ltb;
  f_is_zero := fun x => PrimFloat.eqb x PrimFloat.zero;
  f_to_f32 := round_f32
}.

(** ** numpy arrays

    A two-dimensional [ndarray] of shape [(len rows, ncols)]; every row of a
    well-formed array has [ncols] entries.  A one-dimensional array is a
    list. *)
Record ndarray (F : Type) : Type := mk_ndarray {
  ncols : Z;                    (* shape[1] *)
  rows : list (list F)
}.
Arguments mk_ndarray {F} ncols rows.
Arguments ncols {F} n.
Arguments rows {F} n.

Definition ndarray_wf {F} (x : ndarray F) : Prop :=
  Forall (fun r => Z.of_nat (length r) = ncols x) (rows x).

(** [x.astype('float32')] *)
Definition astype_f32 `{Float F} (x : ndarray F) : ndarray F :=
  {| ncols := ncols x; rows := map (map f_to_f32) (rows x) |}.

End Py.

Notation "'let!' x ':=' m 'in' k" := (Py.bind m (fun x => k))
  (at level 10, x name, m at level 100, k at level 200).

Import Py.

(* ===================================================================== *)
(** * The faiss library, as the vector index uses it                      *)
(* ===================================================================== *)

Module Faiss.
Section Index.
Context {F : Type} `{!Float F}.

Inductive index_kind : Type :=
| FlatL2                        (* squared Euclidean distance, exact scan *)
| FlatIP                        (* inner product, exact scan *)
| IVFFlat (nlist : Z).          (* inverted file over a quantizer *)

(** An index: its dimension, what it computes, whether it accepts vectors
    and the vectors it stores, in insertion order. *)
Record Index : Type := mkIndex {
  d : Z;
  kind : index_kind;
  is_trained : bool;
  xb : list (list F)
}.

Definition ntotal (ix : Index) : Z := Z.of_nat (length (xb ix)).

(** The constructors check nothing about [d].  A flat index is born
    trained; an inverted file is not, and this service never trains one. *)
Definition IndexFlatL2 (dim : Z) : Index :=
  {| d := dim; kind := FlatL2; is_trained := true; xb := [] |}.

Definition IndexFlatIP (dim : Z) : Index :=
  {| d := dim; kind := FlatIP; is_trained := true; xb := [] |}.

Definition IndexIVFFlat (quantizer : Index) (dim nlist : Z) : Index :=
  {| d := dim; kind := IVFFlat nlist; is_trained := false; xb := [] |}.

(** [index.add(x)]: the wrapper asserts the width of [x], the library
    refuses an untrained index, otherwise the rows are appended. *)
Definition add (ix : Index) (x : ndarray F) : result Index :=
  if decide (ncols x <> d ix) then Raise AssertionError
  else if is_trained ix
       then Return {| d := d ix; kind := kind ix; is_trained := true;
                      xb := xb ix ++ rows x |}
       else Raise RuntimeError.

(** The two metrics, accumulated in single precision. *)
Definition fvec_L2sqr (x y : list F) : F :=
  foldl (fun acc ab =>
           let diff := f_to_f32 (f_sub ab.1 ab.2) in
           f_to_f32 (f_add acc (f_to_f32 (f_mul diff diff))))
        (f_of_int 0) (zip x y).

Definition fvec_inner_product (x y : list F) : F :=
  foldl (fun acc ab => f_to_f32 (f_add acc (f_to_f32 (f_mul ab.1 ab.2))))
        (f_of_int 0) (zip x y).

(** Every stored vector with its raw metric value against [q] and its
    position. *)
Definition scan (ix : Index) (q : list F) : list (F * Z) :=
  imap (fun i v =>
          (match kind ix with
           | FlatIP => fvec_inner_product q v
           | _ => fvec_L2sqr q v
           end, Z.of_nat i)) (xb ix).

(** [index.search(q, k)] for one query: the wrapper asserts the width of
    the query and [k > 0]; the answer is the [k] best (raw value, position)
    pairs, best first: smallest distance for L2, largest product for IP.
    Ties are kept in insertion order here; faiss leaves them unspecified.
    The service asks for at most [ntotal] results, so the padding faiss
    returns beyond that is left out. *)
Definition search (ix : Index) (q : list F) (k : Z) : result (list (F * Z)) :=
  if decide (Z.of_nat (length q) <> d ix) then Raise AssertionError
  else if k <=? 0 then Raise AssertionError
  else if is_trained ix
       then Return (take (Z.to_nat k)
                      (match kind ix with
                       | FlatIP => sorted_desc fst f_ltb (scan ix q)
                       | _ => sorted_asc fst f_ltb (scan ix q)
                       end))
       else Raise RuntimeError.

Lemma length_scan (ix : Index) (q : list F) : length (scan ix q) = length (xb ix).
Proof. unfold scan. apply length_imap. Qed.

Lemma length_search (ix : Index) (q : list F) (k : Z) (res : list (F * Z)) :
  search ix q k = Return res -> (length res <= Z.to_nat k)%nat /\ (length res <= length (xb ix))%nat.
Proof.
  unfold search. repeat case_decide; try discriminate.
  destruct (k <=? 0); [discriminate|].
  destruct (is_trained ix); [|discriminate].
  intros [= <-]. rewrite length_take.
  destruct (kind ix); rewrite ?length_sorted_desc, ?length_sorted_asc, length_scan; lia.
Qed.

End Index.
Arguments Index F : clear implicits.
End Faiss.

(* ===================================================================== *)
(** * The vector index service                                            *)
(* ===================================================================== *)

Module FaissSvc.
Section Service.
Context {F : Type} `{!Float F}.

(** Metadata of one image: a string-keyed dict. *)
Definition meta : Type := dict string string.

(** State of [FAISSService]. *)
Record FAISSService : Type := mkFAISSService {
  embedding_size : Z;
  index : option (Faiss.Index F);
  id_mapping : dict Z string;           (* position in the index -> image id *)
  metadata : dict string meta
}.

Definition set_index (self : FAISSService) (ix : Faiss.Index F) : FAISSService :=
  {| embedding_size := embedding_size self; index := Some ix;
     id_mapping := id_mapping self; metadata := metadata self |}.

(** [FAISSService(embedding_size)]: no index yet, nothing is checked. *)
Definition __init__ (size : Z) : FAISSService :=
  {| embedding_size := size; index := None; id_mapping := []; metadata := [] |}.

(** [create_index(index_type)]: the state afterwards and the outcome. *)
Definition create_index (self : FAISSService) (index_type : string)
  : FAISSService * result unit :=
  if decide (index_type = "L2") then
    (set_index self (Faiss.IndexFlatL2 (embedding_size self)), Return tt)
  else if decide (index_type = "Cosine") then
    (set_index self (Faiss.IndexFlatIP (embedding_size self)), Return tt)
  else if decide (index_type = "IVF") then
    let quantizer := Faiss.IndexFlatL2 (embedding_size self) in
    (set_index self (Faiss.IndexIVFFlat quantizer (embedding_size self) 100), Return tt)
  else (self, Raise (ValueError "Tipo de indice no soportado")).

(** The loop of [add_embeddings] over [enumerate(image_ids)], from
    position [i] on: it threads the two dicts. *)
Fixpoint record_ids (current_size : Z) (md : option (list meta)) (i : nat)
    (image_ids : list string) (maps : dict Z string * dict string meta)
  : dict Z string * dict string meta :=
  match image_ids with
  | [] => maps
  | image_id :: rest =>
      let ids := dict_set (current_size + Z.of_nat i) image_id maps.1 in
      let mds :=
        match md with
        | None | Some [] => maps.2                  (* [metadata] is falsy *)
        | Some l =>
            match l !! i with
            | Some m => dict_set image_id m maps.2
            | None => maps.2                        (* i >= len(metadata) *)
            end
        end in
      record_ids current_size md (S i) rest (ids, mds)
  end.

(** [add_embeddings(embeddings, image_ids, metadata)]. *)
Definition add_embeddings (self : FAISSService) (embeddings : ndarray F)
    (image_ids : list string) (md : option (list meta))
  : FAISSService * result unit :=
  let '(self, created) :=
    match index self with
    | None => create_index self "L2"
    | Some _ => (self, Return tt)
    end in
  match created with
  | Raise e => (self, Raise e)
  | Return _ =>
      if decide (ncols embeddings <> embedding_size self) then
        (self, Raise (ValueError "Dimension de embeddings no coincide con indice"))
      else if decide (length (rows embeddings) <> length image_ids) then
        (self, Raise (ValueError "Numero de embeddings y IDs no coincide"))
      else
        let embeddings := astype_f32 embeddings in
        match index self with
        | None => (self, Raise AttributeError)
        | Some ix =>
            let current_size := Faiss.ntotal ix in
            match Faiss.add ix embeddings with
            | Raise e => (self, Raise e)
            | Return ix' =>
                let maps := record_ids current_size md 0 image_ids
                              (id_mapping self, metadata self) in
                ({| embedding_size := embedding_size self; index := Some ix';
                    id_mapping := maps.1; metadata := maps.2 |}, Return tt)
            end
        end
  end.

(** One row of the answer of [search]: a hit whose position has no image id
    is dropped; the raw value [distance] becomes [1 / (1 + distance)] when
    [return_distances] is set, whatever the index computes. *)
Definition hit (self : FAISSService) (return_distances : bool) (r : F * Z)
  : result (list (string * F)) :=
  let distance := r.1 in
  let faiss_idx := r.2 in
  match dict_get faiss_idx (id_mapping self) with
  | Some image_id =>
      if return_distances then
        let! similarity := truediv (f_of_int 1) (f_add (f_of_int 1) distance) in
        Return [(image_id, similarity)]
      else Return [(image_id, distance)]
  | None => Return []
  end.

(** [search(query_embedding, k, return_distances)]; the state is only read. *)
Definition search (self : FAISSService) (query_embedding : list F) (k : Z)
    (return_distances : bool) : result (list (string * F)) :=
  match index self with
  | None => Return []
  | Some ix =>
      if Faiss.ntotal ix =? 0 then Return []
      else if decide (Z.of_nat (length query_embedding) <> embedding_size self) then
        Raise (ValueError "Dimension del query no coincide con indice")
      else
        let query := map f_to_f32 query_embedding in
        let k := Z.min k (Faiss.ntotal ix) in
        let! found := Faiss.search ix query k in
        let! results := mapM (hit self return_distances) found in
        Return (concat results)
  end.

(** ** Snapshots on disk

    A file either deserializes to a value or does not.  The pickled dict of
    the metadata file may lack a key. *)
Inductive file (A : Type) : Type :=
| Unreadable
| Holds (a : A).
Arguments Unreadable {A}.
Arguments Holds {A} a.

Record pickled : Type := mkPickled {
  p_id_mapping : option (dict Z string);
  p_metadata : option (dict string meta);
  p_embedding_size : option Z
}.

(** The two files [load_index] looks for; [None] when the file is absent. *)
Record snapshot : Type := mkSnapshot {
  index_file : option (file (Faiss.Index F));
  metadata_file : option (file pickled)
}.

(** [load_index(filename)], the files of [filename] being [src]. *)
Definition load_index (self : FAISSService) (src : snapshot) : FAISSService * result bool :=
  match index_file src with
  | None => (self, Return false)
  | Some Unreadable => (self, Raise RuntimeError)
  | Some (Holds ix) =>
      let self := set_index self ix in
      match metadata_file src with
      | None => (self, Return true)
      | Some Unreadable => (self, Raise UnpicklingError)
      | Some (Holds data) =>
          match p_id_mapping data with
          | None => (self, Raise (KeyError "id_mapping"))
          | Some ids =>
              let self := {| embedding_size := embedding_size self; index := index self;
                             id_mapping := ids; metadata := metadata self |} in
              match p_metadata data with
              | None => (self, Raise (KeyError "metadata"))
              | Some mds =>
                  let self := {| embedding_size := embedding_size self; index := index self;
                                 id_mapping := id_mapping self; metadata := mds |} in
                  match p_embedding_size data with
                  | None => (self, Raise (KeyError "embedding_size"))
                  | Some size =>
                      ({| embedding_size := size; index := index self;
                          id_mapping := id_mapping self; metadata := metadata self |},
                       Return true)
                  end
              end
          end
      end
  end.

(** [get_stats()["total_embeddings"]] *)
Definition total_embeddings (self : FAISSService) : Z :=
  match index self with
  | Some ix => Faiss.ntotal ix
  | None => 0
  end.

(** ** The loop over the identifiers *)

(** Positions outside [current_size + i ..] are not written. *)
Lemma record_ids_other (cs : Z) (md : option (list meta)) (ids : list string) :
  forall (i : nat) (maps : dict Z string * dict string meta) (pos : Z),
    pos < cs + Z.of_nat i \/ cs + Z.of_nat i + Z.of_nat (length ids) <= pos ->
    dict_get pos (record_ids cs md i ids maps).1 = dict_get pos maps.1.
Proof.
  induction ids as [|id ids IH]; intros i maps pos Hpos; simpl; [reflexivity|].
  rewrite IH by (simpl in Hpos; lia). simpl.
  apply dict_get_set_ne. simpl in Hpos. lia.
Qed.

(** Each identifier is recorded at the next sequential position. *)
Lemma record_ids_position (cs : Z) (md : option (list meta)) (ids : list string) :
  forall (i : nat) (maps : dict Z string * dict string meta) (j : nat) (id : string),
    ids !! j = Some id ->
    dict_get (cs + Z.of_nat (i + j)) (record_ids cs md i ids maps).1 = Some id.
Proof.
  induction ids as [|id0 ids IH]; intros i maps j id Hj; [discriminate|].
  destruct j as [|j]; simpl in *.
  - injection Hj as ->. rewrite record_ids_other by lia. simpl.
    replace (i + 0)%nat with i by lia. apply dict_get_set_eq.
  - replace (i + S j)%nat with (S i + j)%nat by lia. apply IH, Hj.
Qed.

(** An identifier that gets no metadata in the rest of the loop keeps the
    metadata it has. *)
Lemma record_ids_metadata_other (cs : Z) (l : list meta) (ids : list string) (id : string) :
  forall (i : nat) (maps : dict Z string * dict string meta),
    (forall j, ids !! j = Some id -> l !! (i + j)%nat = None) ->
    dict_get id (record_ids cs (Some l) i ids maps).2 = dict_get id maps.2.
Proof.
  induction ids as [|id0 ids IH]; intros i maps Hno; simpl; [reflexivity|].
  rewrite IH.
  - simpl. destruct l as [|m0 l0]; [reflexivity|].
    destruct ((m0 :: l0) !! i) as [m|] eqn:Hm; [|reflexivity].
    apply dict_get_set_ne. intros ->.
    specialize (Hno 0%nat eq_refl). replace (i + 0)%nat with i in Hno by lia. congruence.
  - intros j Hj. replace (S i + j)%nat with (i + S j)%nat by lia. apply Hno, Hj.
Qed.

(** The metadata kept for an identifier is the one of its last occurrence
    that comes with metadata. *)
Lemma record_ids_metadata_last (cs : Z) (l : list meta) (ids : list string) (id : string) (m : meta) :
  forall (i : nat) (maps : dict Z string * dict string meta) (j : nat),
    ids !! j = Some id ->
    l !! (i + j)%nat = Some m ->
    (forall j', (j < j')%nat -> ids !! j' = Some id -> l !! (i + j')%nat = None) ->
    dict_get id (record_ids cs (Some l) i ids maps).2 = Some m.
Proof.
  induction ids as [|id0 ids IH]; intros i maps j Hj Hm Hlast; [discriminate|].
  destruct j as [|j]; simpl in *.
  - injection Hj as ->. replace (i + 0)%nat with i in Hm by lia.
    rewrite record_ids_metadata_other.
    + simpl. destruct l as [|m0 l0]; [discriminate|]. rewrite Hm. apply dict_get_set_eq.
    + intros j' Hj'. replace (S i + j')%nat with (i + S j')%nat by lia.
      apply Hlast; [lia | exact Hj'].
  - apply (IH (S i) _ j Hj).
    + replace (S i + j)%nat with (i + S j)%nat by lia. exact Hm.
    + intros j' Hlt Hj'. replace (S i + j')%nat with (i + S j')%nat by lia.
      apply Hlast; [lia | exact Hj'].
Qed.

(** ** Adding a batch *)

Definition DimensionMismatch : exn :=
  ValueError "Dimension de embeddings no coincide con indice".

Definition CountMismatch : exn :=
  ValueError "Numero de embeddings y IDs no coincide".

(** The index, when there is one, takes vectors of the service's dimension:
    what [create_index] gives for "L2" and "Cosine", and what [add_embeddings]
    keeps. *)
Definition flat_index (self : FAISSService) : Prop :=
  match index self with
  | None => True
  | Some ix => Faiss.is_trained ix = true /\ Faiss.d ix = embedding_size self
  end.

Lemma create_index_flat (self : FAISSService) (index_type : string) :
  index_type = "L2" \/ index_type = "Cosine" ->
  flat_index (create_index self index_type).1.
Proof. intros [-> | ->]; unfold flat_index; simpl; auto. Qed.

Lemma add_embeddings_flat (self : FAISSService) (x : ndarray F)
    (ids : list string) (md : option (list meta)) :
  flat_index self -> flat_index (add_embeddings self x ids md).1.
Proof.
  unfold flat_index, add_embeddings.
  destruct (index self) as [ix|] eqn:Hix; simpl.
  - intros [Ht Hd]. repeat case_decide; simpl; rewrite ?Hix; auto.
    unfold Faiss.add. simpl. case_decide; simpl; rewrite ?Hix; auto.
    rewrite Ht. simpl. auto.
  - intros _. repeat case_decide; simpl; auto.
    unfold Faiss.add. simpl. case_decide; simpl; auto.
Qed.

(** C3: [add_embeddings] is all-or-nothing.  For a batch whose array is
    well formed: when some embedding has a length other than the dimension,
    or the identifiers and the embeddings differ in number, the call raises
    (the dimension error, or the count error) and the record count, the id
    mapping and the metadata are as before; when the array has shape [n, D]
    and there are [n] identifiers, the call returns, the record count grows
    by [n] and the identifier number [j] is at position [total_before + j]. *)
Theorem add_embeddings_all_or_nothing (self : FAISSService) (x : ndarray F)
    (ids : list string) (md : option (list meta)) :
  ndarray_wf x ->
  let out := add_embeddings self x ids md in
  ((exists r, r ∈ rows x /\ Z.of_nat (length r) <> embedding_size self)
   \/ length (rows x) <> length ids ->
   (out.2 = Raise DimensionMismatch \/ out.2 = Raise CountMismatch) /\
   total_embeddings out.1 = total_embeddings self /\
   id_mapping out.1 = id_mapping self /\
   metadata out.1 = metadata self) /\
  (ncols x = embedding_size self -> length (rows x) = length ids -> flat_index self ->
   out.2 = Return tt /\
   total_embeddings out.1 = total_embeddings self + Z.of_nat (length ids) /\
   forall (j : nat) (id : string), ids !! j = Some id ->
     dict_get (total_embeddings self + Z.of_nat j) (id_mapping out.1) = Some id).
Proof.
  intros Hwf out. subst out. split.
  - intros Hbad.
    assert (Hcase : ncols x <> embedding_size self \/ length (rows x) <> length ids).
    { destruct Hbad as [(r & Hr & Hlen) | Hn]; [left | right; exact Hn].
      unfold ndarray_wf in Hwf. rewrite Forall_forall in Hwf.
      rewrite <- (Hwf r Hr). exact Hlen. }
    unfold add_embeddings, total_embeddings.
    destruct (index self) as [ix|] eqn:Hix; simpl;
      repeat case_decide; simpl; rewrite ?Hix; auto; tauto.
  - intros Hcols Hn Hflat.
    unfold add_embeddings, total_embeddings, flat_index in *.
    destruct (index self) as [ix|] eqn:Hix; simpl.
    + destruct Hflat as [Ht Hd].
      rewrite decide_False by tauto. rewrite decide_False by tauto.
      rewrite Hix. unfold Faiss.add. simpl.
      rewrite decide_False by (rewrite Hd; tauto). rewrite Ht. simpl.
      split; [reflexivity|]. split.
      * unfold Faiss.ntotal. simpl. rewrite length_app, length_map. lia.
      * intros j id Hj. apply (record_ids_position _ _ _ 0%nat), Hj.
    + rewrite decide_False by tauto. rewrite decide_False by tauto.
      unfold Faiss.add. simpl.
      rewrite decide_False by tauto. simpl.
      split; [reflexivity|]. split.
      * unfold Faiss.ntotal. simpl. rewrite length_map. lia.
      * intros j id Hj. apply (record_ids_position _ _ _ 0%nat), Hj.
Qed.

(** C10: after a batch that comes with metadata is added, every identifier
    of the batch is in the position-to-identifier mapping at its own
    position, the positions recorded before are kept, and the metadata kept
    for an identifier is the one supplied with its last occurrence in the
    batch, whatever was recorded for it before. *)
Theorem add_embeddings_metadata_last_wins (self self' : FAISSService) (x : ndarray F)
    (ids : list string) (l : list meta) :
  add_embeddings self x ids (Some l) = (self', Return tt) ->
  (forall (j : nat) (id : string), ids !! j = Some id ->
     dict_get (total_embeddings self + Z.of_nat j) (id_mapping self') = Some id) /\
  (forall pos : Z, pos < total_embeddings self ->
     dict_get pos (id_mapping self') = dict_get pos (id_mapping self)) /\
  (forall (j : nat) (id : string) (m : meta),
     ids !! j = Some id -> l !! j = Some m ->
     (forall j', (j < j')%nat -> ids !! j' = Some id -> l !! j' = None) ->
     dict_get id (metadata self') = Some m).
Proof.
  unfold add_embeddings, total_embeddings.
  destruct (index self) as [ix|] eqn:Hix; simpl;
    repeat case_decide; try discriminate; rewrite ?Hix;
    unfold Faiss.add; simpl; repeat case_decide; try discriminate.
  - destruct (Faiss.is_trained ix); [|discriminate]. intros [= <-]. simpl.
    split; [|split].
    + intros j id Hj. apply (record_ids_position _ _ _ 0%nat), Hj.
    + intros pos Hpos. apply record_ids_other. lia.
    + intros j id m Hj Hm Hlast. apply (record_ids_metadata_last _ _ _ _ _ 0%nat _ j); auto.
  - intros [= <-]. simpl. split; [|split].
    + intros j id Hj. apply (record_ids_position _ _ _ 0%nat), Hj.
    + intros pos Hpos. apply record_ids_other. unfold Faiss.ntotal. simpl. lia.
    + intros j id m Hj Hm Hlast. apply (record_ids_metadata_last _ _ _ _ _ 0%nat _ j); auto.
Qed.

(** ** Searching *)

Lemma hit_length (self : FAISSService) (rd : bool) (r : F * Z) (out : list (string * F)) :
  hit self rd r = Return out -> (length out <= 1)%nat.
Proof.
  unfold hit. destruct (dict_get r.2 (id_mapping self)); [|intros [= <-]; simpl; lia].
  destruct rd; [|intros [= <-]; simpl; lia].
  unfold truediv. destruct (f_is_zero _); simpl; [discriminate|].
  intros [= <-]. simpl. lia.
Qed.

Lemma mapM_hit_length (self : FAISSService) (rd : bool) (found : list (F * Z)) :
  forall results, mapM (hit self rd) found = Return results ->
    (length (concat results) <= length found)%nat.
Proof.
  induction found as [|r found IH]; simpl; intros results.
  - intros [= <-]. simpl. lia.
  - destruct (hit self rd r) as [out|] eqn:Hout; simpl; [|discriminate].
    destruct (mapM (hit self rd) found) as [outs|]; simpl; [|discriminate].
    intros [= <-]. simpl. rewrite length_app.
    specialize (IH outs eq_refl). apply hit_length in Hout. lia.
Qed.

(** With raw values asked for, no hit can raise. *)
Lemma mapM_hit_raw (self : FAISSService) (found : list (F * Z)) :
  exists results, mapM (hit self false) found = Return results.
Proof.
  induction found as [|r found [outs IH]]; simpl; [eauto|].
  unfold hit at 1. rewrite IH.
  destruct (dict_get r.2 (id_mapping self)); simpl; eauto.
Qed.

(** The similarity reported for a hit is [1 / (1 + raw)], the raw value
    being whatever the index computes. *)
Lemma hit_similarity (self : FAISSService) (distance similarity : F) (pos : Z) (image_id : string) :
  hit self true (distance, pos) = Return [(image_id, similarity)] ->
  similarity = f_div (f_of_int 1) (f_add (f_of_int 1) distance).
Proof.
  unfold hit, truediv. simpl.
  destruct (dict_get pos (id_mapping self)); [|discriminate].
  destruct (f_is_zero _); simpl; [discriminate|]. congruence.
Qed.

(** C9: on an index of [N > 0] vectors a search for [k > N] neighbours is
    the search for [N]: it has the same outcome, returns at most [N] results,
    and, for a query of the index's dimension asked for raw values, it
    returns. *)
Theorem search_clamps_k (self : FAISSService) (ix : Faiss.Index F)
    (q : list F) (k : Z) (rd : bool) :
  index self = Some ix ->
  0 < Faiss.ntotal ix ->
  Faiss.ntotal ix < k ->
  search self q k rd = search self q (Faiss.ntotal ix) rd /\
  (forall res, search self q k rd = Return res ->
     Z.of_nat (length res) <= Faiss.ntotal ix) /\
  (Z.of_nat (length q) = embedding_size self ->
   Faiss.d ix = embedding_size self ->
   Faiss.is_trained ix = true ->
   exists res, search self q k false = Return res /\
     Z.of_nat (length res) <= Faiss.ntotal ix).
Proof.
  intros Hix Hpos Hk.
  assert (Hmin : Z.min k (Faiss.ntotal ix) = Faiss.ntotal ix) by lia.
  assert (Hlen : forall rd' res, search self q k rd' = Return res ->
            Z.of_nat (length res) <= Faiss.ntotal ix).
  { intros rd' res. unfold search. rewrite Hix, Hmin.
    destruct (Faiss.ntotal ix =? 0) eqn:Hz; [lia|].
    case_decide; [discriminate|].
    destruct (Faiss.search ix _ _) as [found|] eqn:Hfound; simpl; [|discriminate].
    destruct (mapM _ found) as [results|] eqn:Hres; simpl; [|discriminate].
    intros [= <-]. apply mapM_hit_length in Hres.
    apply Faiss.length_search in Hfound. unfold Faiss.ntotal in *. lia. }
  split; [|split].
  - unfold search. rewrite Hix, Hmin, Z.min_id. reflexivity.
  - apply Hlen.
  - intros Hq Hd Ht.
    assert (exists res, search self q k false = Return res) as [res Hres].
    { unfold search. rewrite Hix, Hmin.
      destruct (Faiss.ntotal ix =? 0) eqn:Hz; [lia|].
      rewrite decide_False by tauto.
      unfold Faiss.search. rewrite length_map.
      rewrite decide_False by (rewrite Hd; tauto).
      destruct (Faiss.ntotal ix <=? 0) eqn:Hle; [lia|]. rewrite Ht. simpl.
      match goal with |- context [mapM _ ?found] =>
        destruct (mapM_hit_raw self found) as [results ->] end.
      simpl. eauto. }
    exists res. split; [exact Hres | apply (Hlen false), Hres].
Qed.

(** ** Creating an index *)

(** C7, as the code has it: the dimension is not checked.  For every
    dimension, zero and negative ones included, the service is constructed
    with no index, and [create_index] returns with an empty index of that
    dimension for each of the three supported index types; any other type
    raises and leaves the service without index. *)
Theorem create_index_any_dimension (size : Z) :
  index (__init__ size) = None /\
  create_index (__init__ size) "L2" =
    (set_index (__init__ size) (Faiss.IndexFlatL2 size), Return tt) /\
  create_index (__init__ size) "Cosine" =
    (set_index (__init__ size) (Faiss.IndexFlatIP size), Return tt) /\
  create_index (__init__ size) "IVF" =
    (set_index (__init__ size) (Faiss.IndexIVFFlat (Faiss.IndexFlatL2 size) size 100), Return tt) /\
  total_embeddings (create_index (__init__ size) "L2").1 = 0 /\
  total_embeddings (create_index (__init__ size) "Cosine").1 = 0 /\
  (forall index_type : string,
     index_type <> "L2" -> index_type <> "Cosine" -> index_type <> "IVF" ->
     create_index (__init__ size) index_type =
       (__init__ size, Raise (ValueError "Tipo de indice no soportado"))).
Proof.
  repeat split.
  intros index_type H1 H2 H3. unfold create_index.
  rewrite !decide_False by assumption. reflexivity.
Qed.

(** The reading of the design document under which a dimension that is not
    positive is refused. *)
Definition rejects_nonpositive_dimension : Prop :=
  forall (size : Z) (index_type : string),
    size <= 0 ->
    raised (create_index (__init__ size) index_type).2 /\
    index (create_index (__init__ size) index_type).1 = None.

(** ** Restoring a snapshot *)

(** C6, as the code has it: without index file [load_index] returns false
    and the state is untouched; with an index file that does not deserialize
    it raises and the state is untouched; with a metadata file that does not
    deserialize it raises; and when both files deserialize it returns true
    with the index, the mappings and the declared dimension of the files,
    the declared dimension being compared with nothing. *)
Theorem load_index_outcomes (self : FAISSService) (ix : Faiss.Index F)
    (mf : option (file pickled)) (ids : dict Z string) (mds : dict string meta) (size : Z) :
  load_index self {| index_file := None; metadata_file := mf |} = (self, Return false) /\
  load_index self {| index_file := Some Unreadable; metadata_file := mf |}
    = (self, Raise RuntimeError) /\
  (load_index self {| index_file := Some (Holds ix); metadata_file := Some Unreadable |}).2
    = Raise UnpicklingError /\
  load_index self {| index_file := Some (Holds ix); metadata_file := None |}
    = (set_index self ix, Return true) /\
  load_index self {| index_file := Some (Holds ix);
                     metadata_file := Some (Holds (mkPickled (Some ids) (Some mds) (Some size))) |}
    = ({| embedding_size := size; index := Some ix; id_mapping := ids; metadata := mds |},
       Return true).
Proof. repeat split. Qed.

(** The reading of the design document under which a snapshot whose declared
    dimension differs from the length of a stored vector is refused, the
    state being left as it was. *)
Definition rejects_inconsistent_snapshot : Prop :=
  forall (self : FAISSService) (ix : Faiss.Index F) (data : pickled) (size : Z) (v : list F),
    p_embedding_size data = Some size ->
    v ∈ Faiss.xb ix ->
    Z.of_nat (length v) <> size ->
    let out := load_index self {| index_file := Some (Holds ix);
                                  metadata_file := Some (Holds data) |} in
    raised out.2 /\ out.1 = self.

End Service.
Arguments FAISSService F : clear implicits.
Arguments snapshot F : clear implicits.
Arguments Unreadable {A}.
Arguments Holds {A} a.

(** ** The service at work, in binary64 arithmetic *)

(** Three unit-length vectors of dimension 2. *)
Definition three_vectors : ndarray float :=
  mk_ndarray 2 [[1; 0]; [0; 1]; [0.5; 0.5]]%float.

Definition l2_empty : FAISSService float := (create_index (__init__ 2) "L2").1.

Definition l2_three : FAISSService float :=
  (add_embeddings l2_empty three_vectors ["a"; "b"; "c"] None).1.

(** An inner-product index holding the unit vector [(1, 0)] as image [a]. *)
Definition cosine_one : FAISSService float :=
  (add_embeddings (create_index (__init__ 2) "Cosine").1
     (mk_ndarray 2 [[1; 0]]%float) ["a"] None).1.

Lemma three_vectors_wf : ndarray_wf three_vectors.
Proof. unfold ndarray_wf, three_vectors. simpl. repeat constructor. Qed.

(** C3, two instances: a batch of three vectors of dimension 2 is refused
    by a service of dimension 3, which stays empty, and accepted by a service
    of dimension 2, which then holds three records. *)
Lemma add_embeddings_all_or_nothing_witness :
  ((add_embeddings (__init__ 3) three_vectors ["a"; "b"; "c"] None).2 = Raise DimensionMismatch \/
   (add_embeddings (__init__ 3) three_vectors ["a"; "b"; "c"] None).2 = Raise CountMismatch) /\
  total_embeddings (add_embeddings (__init__ 3) three_vectors ["a"; "b"; "c"] None).1 = 0 /\
  (add_embeddings l2_empty three_vectors ["a"; "b"; "c"] None).2 = Return tt /\
  total_embeddings l2_three = 3.
Proof.
  destruct (add_embeddings_all_or_nothing (__init__ 3) three_vectors ["a"; "b"; "c"] None
              three_vectors_wf) as [Hbad _].
  destruct (add_embeddings_all_or_nothing l2_empty three_vectors ["a"; "b"; "c"] None
              three_vectors_wf) as [_ Hgood].
  destruct Hbad as (Hraise & Htotal & _).
  { left. exists [1; 0]%float. split; [apply list_elem_of_here | discriminate]. }
  destruct Hgood as (Hret & Hgrow & _); [reflexivity | reflexivity | split; reflexivity |].
  split; [exact Hraise|]. split; [exact Htotal|]. split; [exact Hret|]. exact Hgrow.
Defined.

(** An inverted-file index is created untrained, and faiss refuses to add
    to an untrained index: the service leaves the batch out entirely. *)
Example ivf_refuses_add :
  add_embeddings (create_index (__init__ 2) "IVF").1 three_vectors ["a"; "b"; "c"] None
  = ((create_index (__init__ 2) "IVF").1, Raise RuntimeError).
Proof. reflexivity. Qed.

(** C10, an instance: image [a] is added twice in one batch, then once
    more in a second batch; both batches carry metadata. *)
Definition tagged (v : string) : meta := [("color", v)].

Definition first_batch : FAISSService float :=
  (add_embeddings l2_empty three_vectors ["a"; "b"; "a"]
     (Some [tagged "red"; tagged "green"; tagged "blue"])).1.

Lemma add_embeddings_metadata_last_wins_witness :
  dict_get "a" (metadata first_batch) = Some (tagged "blue") /\
  dict_get 0 (id_mapping first_batch) = Some "a" /\
  dict_get 2 (id_mapping first_batch) = Some "a".
Proof.
  destruct (add_embeddings_metadata_last_wins l2_empty first_batch three_vectors
              ["a"; "b"; "a"] [tagged "red"; tagged "green"; tagged "blue"] eq_refl)
    as (Hpos & _ & Hmeta).
  split; [|split].
  - apply (Hmeta 2%nat); [reflexivity | reflexivity |].
    intros [|[|[|j]]] Hlt; try lia; discriminate.
  - apply (Hpos 0%nat). reflexivity.
  - apply (Hpos 2%nat). reflexivity.
Defined.

(** Across batches: a later batch replaces the metadata of [a] and keeps
    the three positions recorded before. *)
Example metadata_across_batches :
  let second := (add_embeddings first_batch (mk_ndarray 2 [[0; 1]]%float) ["a"]
                   (Some [tagged "black"])).1 in
  dict_get "a" (metadata second) = Some (tagged "black") /\
  id_mapping second = [(0, "a"); (1, "b"); (2, "a"); (3, "a")].
Proof. split; reflexivity. Qed.

(** C9, an instance: ten neighbours asked of an index of three. *)
Lemma search_clamps_k_witness :
  search l2_three [1; 0]%float 10 true = search l2_three [1; 0]%float 3 true /\
  exists res, search l2_three [1; 0]%float 10 false = Return res /\
    Z.of_nat (length res) <= 3.
Proof.
  destruct (search_clamps_k l2_three
              (Faiss.mkIndex 2 Faiss.FlatL2 true (map (map round_f32) (rows three_vectors)))
              [1; 0]%float 10 true eq_refl) as (Hsame & _ & Hret);
    [reflexivity | reflexivity |].
  split; [exact Hsame|]. apply Hret; reflexivity.
Defined.

Example search_ten_of_three :
  search l2_three [1; 0]%float 10 true
  = Return [("a", 1%float); ("c", (2 / 3)%float); ("b", (1 / 3)%float)].
Proof. vm_compute. reflexivity. Qed.

(** C4, the Euclidean half: on an L2 index the similarity of every hit is
    [1 / (1 + distance)]; a stored vector is its own nearest neighbour, at
    distance 0 and similarity 1. *)
Example search_l2_self_match :
  search l2_three [0; 1]%float 1 true = Return [("b", 1%float)] /\
  search l2_three [0; 1]%float 1 false = Return [("b", 0%float)].
Proof. split; vm_compute; reflexivity. Qed.

(** C4, the inner-product half, on the code: the query [(1, 0)] against an
    inner-product index that stores [(1, 0)] finds it with raw inner product
    1, and the similarity reported is [1 / (1 + 1)], one half, not 1. *)
Theorem search_cosine_self_match :
  search cosine_one [1; 0]%float 1 false = Return [("a", 1%float)] /\
  search cosine_one [1; 0]%float 1 true = Return [("a", 0.5%float)].
Proof. split; vm_compute; reflexivity. Qed.

(** On the same index the opposite vector, of inner product -1, makes the
    conversion divide by zero. *)
Example search_cosine_opposite :
  search cosine_one [-1; 0]%float 1 true = Raise ZeroDivisionError.
Proof. vm_compute. reflexivity. Qed.

(** C7 as the design document words it fails: dimension 0 is accepted. *)
Lemma create_index_accepts_zero : ~ rejects_nonpositive_dimension (F := float).
Proof.
  intros H. destruct (H 0 "L2") as [[e He] _]; [lia|]. discriminate He.
Qed.

(** C7, instances: a negative dimension gives an empty index of that
    dimension, and an unknown index type is refused. *)
Lemma create_index_any_dimension_witness :
  create_index (F := float) (__init__ (-5)) "Cosine"
    = (set_index (__init__ (-5)) (Faiss.IndexFlatIP (-5)), Return tt) /\
  create_index (F := float) (__init__ 1280) "HNSW"
    = (__init__ 1280, Raise (ValueError "Tipo de indice no soportado")).
Proof.
  split.
  - apply (create_index_any_dimension (F := float) (-5)).
  - apply (create_index_any_dimension (F := float) 1280); discriminate.
Defined.

(** A snapshot of two vectors of dimension 2 that declares dimension 3. *)
Definition inconsistent_snapshot : snapshot float :=
  {| index_file := Some (Holds (Faiss.mkIndex 2 Faiss.FlatL2 true [[1; 0]; [0; 1]]%float));
     metadata_file := Some (Holds (mkPickled (Some [(0, "a"); (1, "b")]) (Some []) (Some 3))) |}.

(** C6 as the design document words it fails: the inconsistent snapshot is
    loaded and [load_index] returns true. *)
Lemma load_index_accepts_inconsistent : ~ rejects_inconsistent_snapshot (F := float).
Proof.
  intros H.
  destruct (H (__init__ 2) (Faiss.mkIndex 2 Faiss.FlatL2 true [[1; 0]; [0; 1]]%float)
              (mkPickled (Some [(0, "a"); (1, "b")]) (Some []) (Some 3)) 3 [1; 0]%float)
    as [[e He] _]; [reflexivity | apply list_elem_of_here | discriminate |].
  discriminate He.
Qed.

Example load_inconsistent_snapshot :
  (load_index (__init__ 2) inconsistent_snapshot).2 = Return true /\
  embedding_size (load_index (__init__ 2) inconsistent_snapshot).1 = 3.
Proof. split; reflexivity. Qed.

End FaissSvc.

(* ===================================================================== *)
(** * The recommendation service                                          *)
(* ===================================================================== *)

Module RecSvc.

(** [datetime.now()]: the clock is an input of the model. *)
Definition timestamp : Type := Z.

(** State of [RecommendationService]; [__init__] below gives the initial one.  The
    two [defaultdict]s are dicts whose missing keys read as an empty row and
    an empty history (and are inserted by that read); the [Counter] reads a
    missing key as 0. *)
Record RecommendationService : Type := mkRecommendationService {
  co_occurrence_matrix : dict string (dict string Z);
  user_interactions : dict string (list (string * timestamp));
  product_popularity : dict string Z
}.

Definition __init__ : RecommendationService :=
  {| co_occurrence_matrix := []; user_interactions := []; product_popularity := [] |}.

(** [m[a][b] += 1] on the matrix: the row of [a] is created when missing,
    the cell starts from 0 when missing. *)
Definition bump (a b : string) (m : dict string (dict string Z)) : dict string (dict string Z) :=
  let row := default [] (dict_get a m) in
  dict_set a (dict_set b (default 0 (dict_get b row) + 1) row) m.

(** One turn of the loop over [recent_products]. *)
Definition co_occur (product_id : string) (m : dict string (dict string Z)) (other_product : string)
  : dict string (dict string Z) :=
  if decide (other_product <> product_id)
  then bump other_product product_id (bump product_id other_product m)
  else m.

(** [recent_products]: the products of [history[-11:-1]], [history] being
    the user's interactions after the append. *)
Definition recent_products (history : list (string * timestamp)) : list string :=
  (slice history (-11) (-1)).*1.

(** [register_interaction(user_id, product_id, interaction_type)]: the new
    state and the returned history length.  Nothing in the body can raise. *)
Definition register_interaction (self : RecommendationService)
    (user_id product_id interaction_type : string) (now : timestamp)
  : RecommendationService * Z :=
  let history := default [] (dict_get user_id (user_interactions self)) ++ [(product_id, now)] in
  let popularity := default 0 (dict_get product_id (product_popularity self)) + 1 in
  ({| co_occurrence_matrix :=
        foldl (co_occur product_id) (co_occurrence_matrix self) (recent_products history);
      user_interactions := dict_set user_id history (user_interactions self);
      product_popularity := dict_set product_id popularity (product_popularity self) |},
   Z.of_nat (length history)).

(** ** Observations *)

(** The cell [(a, b)] of the matrix, when it is recorded. *)
Definition cell (m : dict string (dict string Z)) (a b : string) : option Z :=
  match dict_get a m with
  | Some row => dict_get b row
  | None => None
  end.

(** [co_occurrence(a, b)]: the count, 0 when the pair was never recorded. *)
Definition co_occurrence (self : RecommendationService) (a b : string) : Z :=
  default 0 (cell (co_occurrence_matrix self) a b).

Definition popularity (self : RecommendationService) (p : string) : Z :=
  default 0 (dict_get p (product_popularity self)).

Definition history (self : RecommendationService) (u : string) : list (string * timestamp) :=
  default [] (dict_get u (user_interactions self)).

(** The prior window of the design document: the last [min 10 (length h)]
    entries of the history [h] a user had before the call. *)
Definition prior_window (h : list (string * timestamp)) : list (string * timestamp) :=
  drop (length h - Nat.min 10 (length h)) h.

(** Number of entries of a window that name product [q]. *)
Definition occurrences (q : string) (w : list (string * timestamp)) : Z :=
  Z.of_nat (length (filter (fun e => e.1 = q) w)).

(** A call, and the state after a sequence of calls. *)
Record call : Type := mkCall {
  c_user : string; c_product : string; c_kind : string; c_now : timestamp
}.

Definition step (self : RecommendationService) (c : call) : RecommendationService :=
  (register_interaction self (c_user c) (c_product c) (c_kind c) (c_now c)).1.

Definition run (calls : list call) : RecommendationService := foldl step __init__ calls.

(** ** [register_interaction]: the window, the matrix and the counters *)

Lemma cell_bump (a b x y : string) (m : dict string (dict string Z)) :
  cell (bump a b m) x y =
  if decide (a = x /\ b = y) then Some (default 0 (cell m a b) + 1) else cell m x y.
Proof.
  unfold cell, bump. rewrite dict_get_set.
  destruct (decide (a = x)) as [->|Hax].
  - rewrite dict_get_set. destruct (decide (b = y)) as [->|Hby].
    + rewrite decide_True by auto. destruct (dict_get x m); reflexivity.
    + rewrite decide_False by tauto. destruct (dict_get x m); reflexivity.
  - rewrite decide_False by tauto. reflexivity.
Qed.

(** The window read by the code is the prior window: the slice [-11:-1]
    of the history after the append is the last [min 10 n] entries of the
    [n] entries before it. *)
Lemma recent_products_prior_window (h : list (string * timestamp)) (e : string * timestamp) :
  recent_products (h ++ [e]) = (prior_window h).*1.
Proof.
  unfold recent_products, prior_window, slice, slice_bound. f_equal.
  rewrite length_app. simpl length.
  replace (-11 <? 0) with true by reflexivity.
  replace (-1 <? 0) with true by reflexivity.
  set (n := length h).
  assert (Hlo : Z.to_nat (Z.max (-11 + Z.of_nat (n + 1)) 0) = (n - Nat.min 10 n)%nat) by lia.
  assert (Hhi : Z.to_nat (Z.max (-1 + Z.of_nat (n + 1)) 0
                          - Z.max (-11 + Z.of_nat (n + 1)) 0) = Nat.min 10 n) by lia.
  rewrite Hlo, Hhi.
  rewrite drop_app_le by (unfold n; lia).
  rewrite take_app_le by (rewrite length_drop; fold n; lia).
  apply take_ge. rewrite length_drop. fold n. lia.
Qed.

(** Number of occurrences of [q] in a list of products. *)
Definition count_of (q : string) (l : list string) : Z :=
  Z.of_nat (length (filter (fun o => o = q) l)).

Lemma count_of_fst (q : string) (w : list (string * timestamp)) :
  count_of q (w.*1) = occurrences q w.
Proof.
  unfold count_of, occurrences. f_equal.
  induction w as [|[o t] w IH]; [reflexivity|].
  rewrite fmap_cons, !filter_cons. simpl.
  destruct (decide (o = q)); simpl; congruence.
Qed.

Lemma count_of_cons (q o : string) (l : list string) :
  count_of q (o :: l) = (if decide (o = q) then 1 else 0) + count_of q l.
Proof.
  unfold count_of. rewrite filter_cons.
  destruct (decide (o = q)); simpl length; lia.
Qed.

(** One turn of the loop adds one to the two cells of the pair and to no
    other. *)
Lemma count_co_occur (p o x y : string) (m : dict string (dict string Z)) :
  default 0 (cell (co_occur p m o) x y) =
  default 0 (cell m x y)
  + (if decide (x = p /\ y <> p /\ o = y) then 1 else 0)
  + (if decide (y = p /\ x <> p /\ o = x) then 1 else 0).
Proof.
  unfold co_occur. destruct (decide (o <> p)) as [Hop|Hop].
  - rewrite !cell_bump.
    repeat case_decide; destruct_and?; simplify_eq; simpl; try lia;
      exfalso; naive_solver.
  - assert (o = p) as -> by (destruct (decide (o = p)); tauto).
    repeat case_decide; destruct_and?; simplify_eq; try lia.
Qed.

(** The whole loop: a cell of the row or column of [p] grows by the number
    of entries of the window naming the other product. *)
Lemma count_foldl_co_occur (p x y : string) (l : list string) (m : dict string (dict string Z)) :
  default 0 (cell (foldl (co_occur p) m l) x y) =
  default 0 (cell m x y)
  + (if decide (x = p /\ y <> p) then count_of y l else 0)
  + (if decide (y = p /\ x <> p) then count_of x l else 0).
Proof.
  revert m. induction l as [|o l IH]; intros m; simpl.
  - unfold count_of. simpl. repeat case_decide; lia.
  - rewrite IH, count_co_occur, !count_of_cons.
    repeat case_decide; destruct_and?; simplify_eq; try lia; exfalso; tauto.
Qed.

(** The reading of the design document under which a product of the window
    counts once, however often it occurs there. *)
Definition counts_distinct_products : Prop :=
  forall (self : RecommendationService) (u p kind : string) (now : timestamp) (q : string),
    q <> p ->
    q ∈ (prior_window (history self u)).*1 ->
    co_occurrence (register_interaction self u p kind now).1 p q = co_occurrence self p q + 1.

(** C1, as the code has it: [register_interaction] appends [(product_id, now)]
    to the user's history, adds one to the popularity of [product_id], returns
    the new history length, and adds to the co-occurrence count of
    [(product_id, q)], in both directions, the number of ENTRIES of the prior
    window (the last [min 10 n] of the [n] entries before the append) that
    name [q], for every other product [q]; no other cell changes. *)
Theorem register_interaction_window (self : RecommendationService)
    (u p kind : string) (now : timestamp) :
  let h := history self u in
  let self' := (register_interaction self u p kind now).1 in
  history self' u = h ++ [(p, now)] /\
  popularity self' p = popularity self p + 1 /\
  (register_interaction self u p kind now).2 = Z.of_nat (length h) + 1 /\
  (forall q, q <> p ->
     co_occurrence self' p q = co_occurrence self p q + occurrences q (prior_window h) /\
     co_occurrence self' q p = co_occurrence self q p + occurrences q (prior_window h)) /\
  (forall a b, a <> p -> b <> p -> co_occurrence self' a b = co_occurrence self a b) /\
  co_occurrence self' p p = co_occurrence self p p.
Proof.
  intros h self'. subst h self'. unfold history, popularity, co_occurrence.
  simpl. rewrite !dict_get_set_eq. simpl.
  split; [reflexivity|]. split; [reflexivity|].
  split; [rewrite length_app; simpl; lia|].
  rewrite recent_products_prior_window.
  split; [intros q Hq; split | split; [intros a b Ha Hb|]];
    rewrite count_foldl_co_occur, ?count_of_fst;
    repeat case_decide; destruct_and?; simplify_eq; try lia; exfalso; tauto.
Qed.

(** The state in which user [u1] has looked at [p2] twice. *)
Definition twice_p2 : RecommendationService :=
  run [mkCall "u1" "p2" "view" 1; mkCall "u1" "p2" "view" 2].

(** C1, an instance: with [p2] twice in the window, recording [p1] takes
    the count of the pair from 0 to 2. *)
Lemma register_interaction_window_witness :
  co_occurrence (register_interaction twice_p2 "u1" "p1" "view" 3).1 "p1" "p2" =
  co_occurrence twice_p2 "p1" "p2" + occurrences "p2" (prior_window (history twice_p2 "u1")).
Proof.
  apply (register_interaction_window twice_p2 "u1" "p1" "view" 3).
  discriminate.
Defined.

(** C1 as the design document words it fails: the product [p2] occurs twice
    in the window and contributes 2, not 1. *)
Lemma register_interaction_counts_entries : ~ counts_distinct_products.
Proof.
  intros H.
  specialize (H twice_p2 "u1" "p1" "view" 3 "p2").
  assert (Hc : co_occurrence (register_interaction twice_p2 "u1" "p1" "view" 3).1 "p1" "p2" = 2)
    by reflexivity.
  rewrite Hc in H. vm_compute in H.
  assert (2 = 1) as Habs; [|discriminate Habs].
  apply H; [discriminate|]. apply list_elem_of_here.
Qed.

(** ** The matrix stays symmetric and off the diagonal *)

Definition symmetric (m : dict string (dict string Z)) : Prop :=
  forall a b, cell m a b = cell m b a.

Definition no_self_pair (m : dict string (dict string Z)) : Prop :=
  forall a, cell m a a = None.

Lemma co_occur_symmetric (p o : string) (m : dict string (dict string Z)) :
  symmetric m -> symmetric (co_occur p m o).
Proof.
  intros Hm a b. unfold co_occur. case_decide; [|apply Hm].
  rewrite !cell_bump.
  repeat case_decide; destruct_and?; simplify_eq; try tauto;
    rewrite ?(Hm b a); try reflexivity; apply Hm.
Qed.

Lemma co_occur_no_self_pair (p o : string) (m : dict string (dict string Z)) :
  no_self_pair m -> no_self_pair (co_occur p m o).
Proof.
  intros Hm a. unfold co_occur. case_decide; [|apply Hm].
  rewrite !cell_bump.
  repeat case_decide; destruct_and?; simplify_eq; try tauto; apply Hm.
Qed.

Lemma foldl_co_occur_invariant (p : string) (l : list string) (m : dict string (dict string Z)) :
  symmetric m /\ no_self_pair m ->
  symmetric (foldl (co_occur p) m l) /\ no_self_pair (foldl (co_occur p) m l).
Proof.
  revert m. induction l as [|o l IH]; intros m [Hs Hn]; simpl; [auto|].
  apply IH. split; [apply co_occur_symmetric | apply co_occur_no_self_pair]; assumption.
Qed.

Lemma step_invariant (self : RecommendationService) (c : call) :
  symmetric (co_occurrence_matrix self) /\ no_self_pair (co_occurrence_matrix self) ->
  symmetric (co_occurrence_matrix (step self c)) /\
  no_self_pair (co_occurrence_matrix (step self c)).
Proof. intros H. unfold step. simpl. apply foldl_co_occur_invariant, H. Qed.

Lemma foldl_step_invariant (calls : list call) (self : RecommendationService) :
  symmetric (co_occurrence_matrix self) /\ no_self_pair (co_occurrence_matrix self) ->
  symmetric (co_occurrence_matrix (foldl step self calls)) /\
  no_self_pair (co_occurrence_matrix (foldl step self calls)).
Proof.
  revert self. induction calls as [|c calls IH]; intros self H; simpl; [exact H|].
  apply IH, step_invariant, H.
Qed.

(** C2: after any sequence of [register_interaction] calls on the empty
    service, count(A,B) = count(B,A) for all products (the two cells are
    recorded together, with the same value), and no cell (A,A) is recorded. *)
Theorem co_occurrence_symmetric_no_self (calls : list call) (a b : string) :
  co_occurrence (run calls) a b = co_occurrence (run calls) b a /\
  cell (co_occurrence_matrix (run calls)) a b = cell (co_occurrence_matrix (run calls)) b a /\
  cell (co_occurrence_matrix (run calls)) a a = None.
Proof.
  destruct (foldl_step_invariant calls __init__) as [Hs Hn].
  { split; intros x; reflexivity. }
  unfold co_occurrence. fold (run calls) in Hs, Hn.
  rewrite (Hs a b). auto.
Qed.

(** ** Recommendations *)

Section Recommendations.
Context {F : Type} `{!Float F}.

(** A recommendation: product, score, reason. *)
Definition recommendation : Type := string * F * string.

(** [get_visual_recommendations(product_id, n)].  The module holds the
    vector index service as the global [faiss_service]; the body builds an
    empty list and returns it (the search is left as a TODO). *)
Definition get_visual_recommendations (self : RecommendationService)
    (faiss_service : FaissSvc.FAISSService F) (product_id : string) (n : Z)
  : result (list recommendation) :=
  try_except
    (let recommendations := [] in
     Return recommendations)
    (fun _ => Return []).

(** [get_collaborative_recommendations(product_id, n)]. *)
Definition get_collaborative_recommendations (self : RecommendationService)
    (product_id : string) (n : Z) : result (list recommendation) :=
  try_except
    (if negb (dict_mem product_id (co_occurrence_matrix self)) then Return []
     else
       let co_occurrences := default [] (dict_get product_id (co_occurrence_matrix self)) in
       match co_occurrences with
       | [] => Return []
       | _ :: _ =>
           let sorted_products := slice_to (sorted_desc snd Z.ltb co_occurrences) n in
           let! max_count := max_int (dict_values co_occurrences) in
           mapM (fun oc : string * Z =>
                   let! score := int_truediv oc.2 max_count in
                   Return (oc.1, score, "Visto junto " +:+ pretty oc.2 +:+ " veces"))
                sorted_products
       end)
    (fun _ => Return []).

(** The entry of [combined_scores] for a product. *)
Record scores : Type := mkScores {
  visual_score : F;
  collab_score : F;
  reasons : list string
}.

Definition add_visual (visual_weight : F) (combined : dict string scores) (r : recommendation)
  : dict string scores :=
  let '(prod_id, score, reason) := r in
  dict_set prod_id
    {| visual_score := f_mul score visual_weight; collab_score := f_of_int 0;
       reasons := [reason] |} combined.

Definition add_collab (collaborative_weight : F) (combined : dict string scores)
    (r : recommendation) : dict string scores :=
  let '(prod_id, score, reason) := r in
  match dict_get prod_id combined with
  | Some sc =>
      dict_set prod_id
        {| visual_score := visual_score sc;
           collab_score := f_mul score collaborative_weight;
           reasons := reasons sc ++ [reason] |} combined
  | None =>
      dict_set prod_id
        {| visual_score := f_of_int 0;
           collab_score := f_mul score collaborative_weight;
           reasons := [reason] |} combined
  end.

(** [get_hybrid_recommendations(product_id, n, visual_weight, collaborative_weight)]. *)
Definition get_hybrid_recommendations (self : RecommendationService)
    (faiss_service : FaissSvc.FAISSService F) (product_id : string) (n : Z)
    (visual_weight collaborative_weight : F) : result (list recommendation) :=
  try_except
    (let! visual_recs := get_visual_recommendations self faiss_service product_id (n * 2) in
     let! collab_recs := get_collaborative_recommendations self product_id (n * 2) in
     let combined_scores := foldl (add_visual visual_weight) [] visual_recs in
     let combined_scores := foldl (add_collab collaborative_weight) combined_scores collab_recs in
     let final_recommendations :=
       map (fun ps : string * scores =>
              (ps.1, f_add (visual_score ps.2) (collab_score ps.2),
               String.concat " + " (reasons ps.2)))
           combined_scores in
     let final_recommendations :=
       sorted_desc (fun r : recommendation => r.1.2) f_ltb final_recommendations in
     Return (slice_to final_recommendations n))
    (fun _ => Return []).

(** [Counter.most_common(n)]: the [n] largest counts, first seen first
    among equals; nothing for [n <= 0]. *)
Definition most_common (counter : dict string Z) (n : Z) : list (string * Z) :=
  if n <=? 0 then [] else take (Z.to_nat n) (sorted_desc snd Z.ltb counter).

(** [_get_popular_products(n)] *)
Definition _get_popular_products (self : RecommendationService) (n : Z)
  : result (list recommendation) :=
  let most := most_common (product_popularity self) n in
  let max_count := match most with pc :: _ => pc.2 | [] => 1 end in
  mapM (fun pc : string * Z =>
          let! score := int_truediv pc.2 max_count in
          Return (pc.1, score, "Producto popular"))
       most.

(** The anchor product of a request: the product given, or, when only a
    user is given, the product of the user's last interaction. *)
Definition anchor (self : RecommendationService) (product_id user_id : option string)
  : option string :=
  if truthy user_id && negb (truthy product_id) then
    match user_id with
    | Some u =>
        match dict_get u (user_interactions self) with
        | Some interactions =>
            match last interactions with
            | Some e => Some e.1
            | None => product_id
            end
        | None => product_id
        end
    | None => product_id
    end
  else product_id.

(** The weights [get_recommendations] leaves to their default, 0.5. *)
Definition default_weight : F := f_div (f_of_int 1) (f_of_int 2).

(** [get_recommendations(product_id, user_id, n, strategy)]. *)
Definition get_recommendations (self : RecommendationService)
    (faiss_service : FaissSvc.FAISSService F) (product_id user_id : option string)
    (n : Z) (strategy : string) : result (list recommendation) :=
  try_except
    (let product_id := anchor self product_id user_id in
     match product_id with
     | Some p =>
         if decide (p = "") then _get_popular_products self n
         else if decide (strategy = "visual") then
           get_visual_recommendations self faiss_service p n
         else if decide (strategy = "collaborative") then
           get_collaborative_recommendations self p n
         else
           get_hybrid_recommendations self faiss_service p n default_weight default_weight
     | None => _get_popular_products self n
     end)
    (fun _ => Return []).

(** A [try] whose handler returns always returns. *)
Lemma try_except_returns {A} (body : result A) (a : A) :
  exists l, try_except body (fun _ => Return a) = Return l.
Proof. destruct body; simpl; eauto. Qed.

Lemma try_except_idem {A} (body : result A) (a : A) :
  try_except (try_except body (fun _ => Return a)) (fun _ => Return a)
  = try_except body (fun _ => Return a).
Proof. destruct body; reflexivity. Qed.

(** C5, as the code has it: with an anchor product, every strategy name
    other than "visual" and "collaborative" is served as "hybrid" with the
    default weights; the call returns a list and raises nothing. *)
Theorem get_recommendations_defaults_to_hybrid (self : RecommendationService)
    (faiss_service : FaissSvc.FAISSService F) (product_id user_id : option string)
    (n : Z) (strategy p : string) :
  anchor self product_id user_id = Some p ->
  p <> "" ->
  strategy <> "visual" ->
  strategy <> "collaborative" ->
  get_recommendations self faiss_service product_id user_id n strategy
  = get_hybrid_recommendations self faiss_service p n default_weight default_weight /\
  get_recommendations self faiss_service product_id user_id n strategy
  = get_recommendations self faiss_service product_id user_id n "hybrid" /\
  exists l, get_recommendations self faiss_service product_id user_id n strategy = Return l.
Proof.
  intros Ha Hp Hv Hc.
  assert (Hs : forall s, s <> "visual" -> s <> "collaborative" ->
            get_recommendations self faiss_service product_id user_id n s
            = get_hybrid_recommendations self faiss_service p n default_weight default_weight).
  { intros s H1 H2. unfold get_recommendations. rewrite Ha.
    rewrite !decide_False by assumption.
    unfold get_hybrid_recommendations. apply try_except_idem. }
  split; [apply Hs; assumption|]. split.
  - rewrite !Hs by (assumption || discriminate). reflexivity.
  - unfold get_recommendations. apply try_except_returns.
Qed.

(** The reading of the design document under which an unknown strategy name
    is an error. *)
Definition rejects_unknown_strategy : Prop :=
  forall (self : RecommendationService) (faiss_service : FaissSvc.FAISSService F)
         (p : string) (n : Z) (strategy : string),
    p <> "" ->
    strategy <> "visual" -> strategy <> "collaborative" -> strategy <> "hybrid" ->
    raised (get_recommendations self faiss_service (Some p) None n strategy).

(** The reading of the design document under which the visual strategy
    finds neighbours in some state of the index. *)
Definition visual_finds_neighbours : Prop :=
  exists (self : RecommendationService) (faiss_service : FaissSvc.FAISSService F)
         (product_id : string) (n : Z) (l : list recommendation),
    get_visual_recommendations self faiss_service product_id n = Return l /\ l <> [].

(** What the code does: no product is ever recommended on visual grounds. *)
Lemma get_visual_recommendations_empty (self : RecommendationService)
    (faiss_service : FaissSvc.FAISSService F) (product_id : string) (n : Z) :
  get_visual_recommendations self faiss_service product_id n = Return [].
Proof. reflexivity. Qed.

End Recommendations.

(** ** The engine at work, in binary64 arithmetic *)

(** The scenario of the design document: user [u1] looks at [p1], [p2],
    [p3], in that order. *)
Definition scenario : RecommendationService :=
  run [mkCall "u1" "p1" "view" 1; mkCall "u1" "p2" "view" 2; mkCall "u1" "p3" "view" 3].

Example scenario_counts :
  co_occurrence scenario "p1" "p2" = 1 /\ co_occurrence scenario "p1" "p3" = 1 /\
  co_occurrence scenario "p2" "p3" = 1 /\
  popularity scenario "p1" = 1 /\ popularity scenario "p2" = 1 /\ popularity scenario "p3" = 1.
Proof. repeat split. Qed.

Example scenario_collaborative :
  get_collaborative_recommendations (F := float) scenario "p1" 5
  = Return [("p2", 1%float, "Visto junto 1 veces"); ("p3", 1%float, "Visto junto 1 veces")].
Proof. vm_compute. reflexivity. Qed.

Example first_interaction_no_pair :
  co_occurrence_matrix (run [mkCall "u1" "p1" "view" 1]) = [].
Proof. reflexivity. Qed.

Example unknown_user_popular :
  get_recommendations (F := float) scenario (FaissSvc.__init__ 2) None (Some "unknown_user") 3 "hybrid"
  = Return [("p1", 1%float, "Producto popular"); ("p2", 1%float, "Producto popular");
            ("p3", 1%float, "Producto popular")].
Proof. vm_compute. reflexivity. Qed.

(** A vector index that stores an embedding for each product of the
    scenario. *)
Definition catalogue : FaissSvc.FAISSService float :=
  (FaissSvc.add_embeddings FaissSvc.l2_empty FaissSvc.three_vectors ["p1"; "p2"; "p3"] None).1.

(** C5, an instance: the strategy [nearest] is served as hybrid. *)
Lemma get_recommendations_defaults_to_hybrid_witness :
  get_recommendations scenario catalogue (Some "p1") None 5 "nearest"
  = get_hybrid_recommendations scenario catalogue "p1" 5 default_weight default_weight.
Proof.
  apply (get_recommendations_defaults_to_hybrid scenario catalogue (Some "p1") None 5
           "nearest" "p1"); [reflexivity | discriminate | discriminate | discriminate].
Defined.

Example unknown_strategy_result :
  get_recommendations scenario catalogue (Some "p1") None 5 "nearest"
  = Return [("p2", 0.5%float, "Visto junto 1 veces"); ("p3", 0.5%float, "Visto junto 1 veces")].
Proof. vm_compute. reflexivity. Qed.

(** C5 as the design document words it fails: the strategy [nearest] is
    answered, not refused. *)
Lemma unknown_strategy_is_served : ~ rejects_unknown_strategy (F := float).
Proof.
  intros H.
  destruct (H scenario catalogue "p1" 5 "nearest") as [e He];
    [discriminate | discriminate | discriminate | discriminate |].
  rewrite unknown_strategy_result in He. discriminate He.
Qed.

(** C8, on the code: the index stores an embedding for [p1] and two other
    products, the vector index itself finds the neighbours of that embedding,
    and the visual strategy recommends nothing. *)
Theorem get_visual_on_indexed_product :
  dict_get 0 (FaissSvc.id_mapping catalogue) = Some "p1" /\
  FaissSvc.search catalogue [1; 0]%float 2 true
    = Return [("p1", 1%float); ("p3", (2 / 3)%float)] /\
  get_visual_recommendations scenario catalogue "p1" 5 = Return [].
Proof. split; [|split]; vm_compute; reflexivity. Qed.

(** No state of the index makes the visual strategy return a product. *)
Lemma visual_never_finds_neighbours : ~ visual_finds_neighbours (F := float).
Proof.
  intros (self & fs & p & n & l & Hl & Hne).
  rewrite get_visual_recommendations_empty in Hl. congruence.
Qed.

End RecSvc.


(* ===================================================================== *)
(** * More of the runtime: facts about sorting, slices and dicts          *)
(* ===================================================================== *)

Module PyFacts.

Section Sorting.
Context {A C : Type} (key : A -> C) (lt : C -> C -> bool).

Lemma insert_desc_perm (x : A) (l : list A) : insert_desc key lt x l ≡ₚ x :: l.
Proof.
  induction l as [|y l IH]; simpl; [reflexivity|].
  destruct (lt (key x) (key y)); [|reflexivity].
  rewrite IH. apply Permutation_swap.
Qed.

Lemma sorted_desc_perm (l : list A) : sorted_desc key lt l ≡ₚ l.
Proof.
  induction l as [|x l IH]; simpl; [reflexivity|].
  rewrite insert_desc_perm. by rewrite IH.
Qed.

Lemma insert_asc_perm (x : A) (l : list A) : insert_asc key lt x l ≡ₚ x :: l.
Proof.
  induction l as [|y l IH]; simpl; [reflexivity|].
  destruct (lt (key y) (key x)); [|reflexivity].
  rewrite IH. apply Permutation_swap.
Qed.

Lemma sorted_asc_perm (l : list A) : sorted_asc key lt l ≡ₚ l.
Proof.
  induction l as [|x l IH]; simpl; [reflexivity|].
  rewrite insert_asc_perm. by rewrite IH.
Qed.

End Sorting.

(** Largest first, for integer keys: no element is followed by a larger one. *)
Definition descending {A} (key : A -> Z) (l : list A) : Prop :=
  forall (i j : nat) (x y : A), (i < j)%nat -> l !! i = Some x -> l !! j = Some y -> key y <= key x.

Lemma descending_cons {A} (key : A -> Z) (x : A) (l : list A) :
  descending key (x :: l) <-> (forall y, y ∈ l -> key y <= key x) /\ descending key l.
Proof.
  split.
  - intros H. split.
    + intros y Hy. apply list_elem_of_lookup in Hy as [j Hj].
      apply (H 0%nat (S j) x y); [lia | reflexivity | exact Hj].
    + intros i j a b Hij Ha Hb. apply (H (S i) (S j) a b); [lia | exact Ha | exact Hb].
  - intros [Hx Hl] i j a b Hij Ha Hb.
    destruct j as [|j]; [lia|]. simpl in Hb.
    destruct i as [|i]; simpl in Ha.
    + injection Ha as <-. apply Hx. apply list_elem_of_lookup. eauto.
    + apply (Hl i j a b); [lia | exact Ha | exact Hb].
Qed.

Lemma insert_desc_descending {A} (key : A -> Z) (x : A) (l : list A) :
  descending key l -> descending key (insert_desc key Z.ltb x l).
Proof.
  induction l as [|y l IH]; intros Hl; simpl.
  - intros i j a b Hij Ha Hb. destruct i, j; simpl in *; try lia; discriminate.
  - apply descending_cons in Hl as [Hy Hl].
    destruct (key x <? key y) eqn:Hlt.
    + apply descending_cons. split; [|apply IH, Hl].
      intros z Hz. rewrite insert_desc_perm in Hz.
      apply elem_of_cons in Hz as [->|Hz]; [lia | apply Hy, Hz].
    + apply descending_cons. split.
      * intros z Hz. apply elem_of_cons in Hz as [->|Hz]; [lia|].
        specialize (Hy z Hz). lia.
      * apply descending_cons. split; assumption.
Qed.

Lemma sorted_desc_descending {A} (key : A -> Z) (l : list A) :
  descending key (sorted_desc key Z.ltb l).
Proof.
  induction l as [|x l IH]; simpl.
  - intros i j a b _ Ha. destruct i; discriminate.
  - apply insert_desc_descending, IH.
Qed.

Lemma descending_take {A} (key : A -> Z) (n : nat) (l : list A) :
  descending key l -> descending key (take n l).
Proof.
  intros H i j x y Hij Hx Hy.
  apply lookup_take_Some in Hx as [Hx _]. apply lookup_take_Some in Hy as [Hy _].
  apply (H i j x y Hij Hx Hy).
Qed.

(** [l[:n]] for [n >= 0] is the first [n] elements. *)
Lemma slice_to_nonneg {A} (l : list A) (n : Z) :
  0 <= n -> slice_to l n = take (Z.to_nat n) l.
Proof.
  intros Hn. unfold slice_to, slice, slice_bound.
  replace (0 <? 0) with false by reflexivity.
  destruct (n <? 0) eqn:Hneg; [lia|].
  assert (H0 : Z.min 0 (Z.of_nat (length l)) = 0) by lia.
  rewrite H0, Z.sub_0_r. change (Z.to_nat 0) with 0%nat. rewrite drop_0.
  destruct (decide (n <= Z.of_nat (length l))).
  - rewrite Z.min_l by lia. reflexivity.
  - rewrite Z.min_r by lia. rewrite Nat2Z.id.
    rewrite firstn_all. symmetry. apply take_ge. lia.
Qed.

Lemma length_slice_to {A} (l : list A) (n : Z) :
  0 <= n -> Z.of_nat (length (slice_to l n)) = Z.min n (Z.of_nat (length l)).
Proof. intros Hn. rewrite slice_to_nonneg by assumption. rewrite length_take. lia. Qed.

(** ** Dicts with one entry per key *)

Section DictFacts.
Context {K V : Type} `{EqDecision K}.

Lemma dict_set_keys_NoDup (k : K) (v : V) (d : dict K V) :
  NoDup d.*1 -> NoDup (dict_set k v d).*1.
Proof.
  induction d as [|[k0 v0] d IH]; simpl; intros Hd.
  - apply NoDup_singleton.
  - apply NoDup_cons in Hd as [Hk0 Hd].
    destruct (decide (k0 = k)) as [->|Hne]; simpl.
    + apply NoDup_cons. split; assumption.
    + apply NoDup_cons. split; [|apply IH, Hd].
      intros Hin. apply list_elem_of_fmap in Hin as [[k1 v1] [-> Hin]]. simpl in *.
      assert (Hg : is_Some (dict_get k1 (dict_set k v d))).
      { clear -Hin. induction (dict_set k v d) as [|[a b] l IHl]; [inversion Hin|].
        simpl. destruct (decide (a = k1)); [eauto|].
        apply IHl. apply elem_of_cons in Hin as [Heq|Hin]; [congruence | exact Hin]. }
      rewrite dict_get_set_ne in Hg by congruence.
      destruct Hg as [v2 Hg]. apply Hk0.
      clear -Hg. induction d as [|[a b] d IHd]; [discriminate|].
      simpl in *. destruct (decide (a = k1)) as [->|]; [left | right; apply IHd, Hg].
Qed.

Lemma dict_get_elem_of (k : K) (v : V) (d : dict K V) :
  dict_get k d = Some v -> (k, v) ∈ d.
Proof.
  induction d as [|[a b] d IH]; simpl; [discriminate|].
  destruct (decide (a = k)) as [->|]; [intros [= ->]; left | right; auto].
Qed.

Lemma elem_of_dict_get (k : K) (v : V) (d : dict K V) :
  NoDup d.*1 -> (k, v) ∈ d -> dict_get k d = Some v.
Proof.
  induction d as [|[a b] d IH]; simpl; intros Hd Hin; [inversion Hin|].
  apply NoDup_cons in Hd as [Ha Hd].
  apply elem_of_cons in Hin as [[= <- <-]|Hin].
  - rewrite decide_True by reflexivity. reflexivity.
  - destruct (decide (a = k)) as [->|]; [|auto].
    exfalso. apply Ha. apply list_elem_of_fmap. exists (k, v). auto.
Qed.

End DictFacts.

End PyFacts.

(* ===================================================================== *)
(** * The vector index service: the remaining methods                     *)
(* ===================================================================== *)

Module FaissMore.
Import FaissSvc PyFacts.

Section Service.
Context {F : Type} `{!Float F}.

(** The neighbours of [q] in [ix], best first, as [Faiss.search] ranks them. *)
Definition ranked (ix : Faiss.Index F) (q : list F) : list (F * Z) :=
  match Faiss.kind ix with
  | Faiss.FlatIP => sorted_desc fst f_ltb (Faiss.scan ix q)
  | _ => sorted_asc fst f_ltb (Faiss.scan ix q)
  end.

(** [index.search(x, k)] for an array of queries: one row of [k] (raw value,
    position) pairs per query, the checks being made once for the array. *)
Definition search_batch (ix : Faiss.Index F) (x : ndarray F) (k : Z)
  : result (list (list (F * Z))) :=
  if decide (ncols x <> Faiss.d ix) then Raise AssertionError
  else if k <=? 0 then Raise AssertionError
  else if Faiss.is_trained ix
       then Return (map (fun q => take (Z.to_nat k) (ranked ix q)) (rows x))
       else Raise RuntimeError.

(** [batch_search(query_embeddings, k)].  The inner loop reads the [k]
    columns of row [i], which is the row itself since [k] is clamped. *)
Definition batch_search (self : FAISSService F) (query_embeddings : ndarray F) (k : Z)
  : result (list (list (string * F))) :=
  match index self with
  | None => Return (map (fun _ => []) (rows query_embeddings))
  | Some ix =>
      if Faiss.ntotal ix =? 0 then Return (map (fun _ => []) (rows query_embeddings))
      else
        let queries := astype_f32 query_embeddings in
        let k := Z.min k (Faiss.ntotal ix) in
        let! found := search_batch ix queries k in
        mapM (fun row => let! results := mapM (hit self true) row in
                         Return (concat results)) found
  end.

(** [save_index(filename)]: the files of [filename] afterwards.  Nothing
    is written when there is no index.  Write failures are left out. *)
Definition save_index (self : FAISSService F) (disk : snapshot F)
  : snapshot F * result unit :=
  match index self with
  | None => (disk, Return tt)
  | Some ix =>
      ({| index_file := Some (Holds ix);
          metadata_file :=
            Some (Holds {| p_id_mapping := Some (id_mapping self);
                           p_metadata := Some (metadata self);
                           p_embedding_size := Some (embedding_size self) |}) |},
       Return tt)
  end.

(** The build route of the API ([build_faiss_index]) from the point where
    the documents of the database have been gathered into a batch: a new L2
    index, the batch, the snapshot. *)
Definition build (self : FAISSService F) (x : ndarray F) (ids : list string)
    (md : list meta) (disk : snapshot F) : (FAISSService F * snapshot F) * result unit :=
  let '(self, r) := create_index self "L2" in
  match r with
  | Raise e => (self, disk, Raise e)
  | Return _ =>
      let '(self, r) := add_embeddings self x ids (Some md) in
      match r with
      | Raise e => (self, disk, Raise e)
      | Return _ =>
          let '(disk, r) := save_index self disk in
          (self, disk, r)
      end
  end.

(** ** Saving and loading *)

(** X1. A saved index is read back whole: loading the files [save_index] wrote,
    into any service, gives the saved service back and returns true; with no
    index, [save_index] leaves the files as they are. *)
Theorem save_load_roundtrip (self other : FAISSService F) (disk : snapshot F) :
  (index self = None -> save_index self disk = (disk, Return tt)) /\
  (forall ix, index self = Some ix ->
     (save_index self disk).2 = Return tt /\
     load_index other (save_index self disk).1 = (self, Return true)).
Proof.
  split.
  - intros Hix. unfold save_index. rewrite Hix. reflexivity.
  - intros ix Hix. unfold save_index. rewrite Hix. simpl.
    split; [reflexivity|]. destruct self as [size ix' ids mds]. simpl in *.
    rewrite Hix. reflexivity.
Qed.

(** ** The checks of [search] *)

Definition QueryDimensionMismatch : exn :=
  ValueError "Dimension del query no coincide con indice".

(** X2. With no vectors stored, [search] answers the empty list before it
    looks at the query, of whatever length; with vectors stored, a query of
    another length than the service's dimension is refused, whatever [k]. *)
Theorem search_empty_then_dimension (self : FAISSService F) (q : list F) (k : Z) (rd : bool) :
  (total_embeddings self = 0 -> search self q k rd = Return []) /\
  (total_embeddings self <> 0 -> Z.of_nat (length q) <> embedding_size self ->
   search self q k rd = Raise QueryDimensionMismatch).
Proof.
  unfold total_embeddings, search. destruct (index self) as [ix|]; split; try tauto.
  - intros ->. reflexivity.
  - intros Hn Hq. destruct (Faiss.ntotal ix =? 0) eqn:Hz; [lia|].
    rewrite decide_True by assumption. reflexivity.
Qed.

(** ** [batch_search] and [search] *)

Lemma search_ranked (ix : Faiss.Index F) (q : list F) (k : Z) :
  Z.of_nat (length q) = Faiss.d ix -> 0 < k -> Faiss.is_trained ix = true ->
  Faiss.search ix q k = Return (take (Z.to_nat k) (ranked ix q)).
Proof.
  intros Hq Hk Ht. unfold Faiss.search, ranked.
  rewrite decide_False by tauto.
  destruct (k <=? 0) eqn:Hle; [lia|]. rewrite Ht.
  destruct (Faiss.kind ix); reflexivity.
Qed.

(** X3. One query at a time or all at once: on an index of the service's
    dimension, for an array of queries of that dimension and [k > 0],
    [batch_search] returns, query by query, what [search] returns with
    similarities asked for, and raises when one of these searches raises. *)
Theorem batch_search_is_search (self : FAISSService F) (ix : Faiss.Index F)
    (qs : ndarray F) (k : Z) :
  index self = Some ix ->
  Faiss.d ix = embedding_size self ->
  Faiss.is_trained ix = true ->
  ndarray_wf qs ->
  ncols qs = embedding_size self ->
  0 < k ->
  batch_search self qs k = mapM (fun q => search self q k true) (rows qs).
Proof.
  intros Hix Hd Ht Hwf Hcols Hk. unfold batch_search. rewrite Hix.
  unfold ndarray_wf in Hwf. rewrite Hcols in Hwf.
  destruct (Faiss.ntotal ix =? 0) eqn:Hz.
  - clear Hcols. induction (rows qs) as [|q l IH]; simpl; [reflexivity|].
    apply Forall_cons in Hwf as [Hq Hl]. rewrite <- (IH Hl).
    unfold search. rewrite Hix, Hz. reflexivity.
  - assert (Hmin : 0 < Z.min k (Faiss.ntotal ix)).
    { apply Z.eqb_neq in Hz. unfold Faiss.ntotal in *. lia. }
    unfold search_batch. simpl.
    rewrite decide_False by (rewrite Hcols, Hd; tauto).
    destruct (Z.min k (Faiss.ntotal ix) <=? 0) eqn:Hle; [lia|]. rewrite Ht. simpl.
    clear Hcols. induction (rows qs) as [|q l IH]; simpl; [reflexivity|].
    apply Forall_cons in Hwf as [Hq Hl]. rewrite (IH Hl).
    unfold search at 2. rewrite Hix, Hz.
    rewrite decide_False by tauto.
    rewrite search_ranked by (rewrite ?length_map; congruence || assumption).
    simpl. destruct (mapM (hit self true) _); reflexivity.
Qed.

(** ** What [add_embeddings] computes *)

(** The index a batch goes to: the one of the service, or the L2 index
    [add_embeddings] creates when there is none. *)
Definition current_index (self : FAISSService F) : Faiss.Index F :=
  default (Faiss.IndexFlatL2 (embedding_size self)) (index self).

Lemma set_current_index (self : FAISSService F) (ix : Faiss.Index F) :
  index self = Some ix -> set_index self ix = self.
Proof. destruct self. simpl. intros ->. reflexivity. Qed.

Lemma add_embeddings_returns (self : FAISSService F) (x : ndarray F)
    (ids : list string) (md : option (list meta)) :
  flat_index self -> ncols x = embedding_size self -> length (rows x) = length ids ->
  add_embeddings self x ids md =
  (let ix := current_index self in
   let maps := record_ids (Faiss.ntotal ix) md 0 ids (id_mapping self, metadata self) in
   {| embedding_size := embedding_size self;
      index := Some {| Faiss.d := Faiss.d ix; Faiss.kind := Faiss.kind ix;
                       Faiss.is_trained := true;
                       Faiss.xb := Faiss.xb ix ++ map (map f_to_f32) (rows x) |};
      id_mapping := maps.1; metadata := maps.2 |}, Return tt).
Proof.
  intros Hflat Hcols Hn. unfold add_embeddings, current_index, flat_index in *.
  destruct (index self) as [ix|] eqn:Hix; simpl.
  - destruct Hflat as [Ht Hd].
    rewrite !decide_False by tauto. rewrite Hix. unfold Faiss.add. simpl.
    rewrite decide_False by (rewrite Hd; tauto). rewrite Ht. reflexivity.
  - rewrite !decide_False by tauto. unfold Faiss.add. simpl.
    rewrite decide_False by tauto. reflexivity.
Qed.

Lemma add_embeddings_raises (self : FAISSService F) (x : ndarray F)
    (ids : list string) (md : option (list meta)) :
  ncols x <> embedding_size self \/ length (rows x) <> length ids ->
  (add_embeddings self x ids md).1 = set_index self (current_index self).
Proof.
  intros Hbad. unfold add_embeddings, current_index.
  destruct (index self) as [ix|] eqn:Hix; simpl.
  - rewrite (set_current_index self ix Hix).
    repeat case_decide; try reflexivity; tauto.
  - repeat case_decide; try reflexivity; tauto.
Qed.

(** ** Positions and identifiers stay in step *)

(** A service is consistent when its index is flat and of its dimension,
    the positions that have an identifier are exactly those of the stored
    vectors, and every stored vector has the service's dimension. *)
Definition consistent (self : FAISSService F) : Prop :=
  flat_index self /\
  (forall pos : Z, is_Some (dict_get pos (id_mapping self))
                   <-> 0 <= pos < total_embeddings self) /\
  (forall v, v ∈ Faiss.xb (current_index self) -> Z.of_nat (length v) = embedding_size self).

Lemma record_ids_defined (cs : Z) (md : option (list meta)) (ids : list string)
    (maps : dict Z string * dict string meta) (pos : Z) :
  is_Some (dict_get pos (record_ids cs md 0 ids maps).1)
  <-> cs <= pos < cs + Z.of_nat (length ids) \/ is_Some (dict_get pos maps.1).
Proof.
  destruct (decide (cs <= pos < cs + Z.of_nat (length ids))) as [Hin|Hout].
  - split; [tauto|]. intros _.
    destruct (lookup_lt_is_Some_2 ids (Z.to_nat (pos - cs))) as [id Hid]; [lia|].
    pose proof (record_ids_position cs md ids 0%nat maps _ id Hid) as H.
    replace (cs + Z.of_nat (0 + Z.to_nat (pos - cs))) with pos in H by lia.
    rewrite H. eauto.
  - rewrite record_ids_other by lia. tauto.
Qed.

Lemma create_index_consistent (size : Z) (index_type : string) :
  index_type = "L2" \/ index_type = "Cosine" ->
  consistent (create_index (__init__ size) index_type).1.
Proof.
  intros [-> | ->]; (split; [apply create_index_flat; auto|]); split; simpl.
  - intros pos. unfold total_embeddings, Faiss.ntotal. simpl.
    split; [intros [? ?]; discriminate | lia].
  - intros v Hv. inversion Hv.
  - intros pos. unfold total_embeddings, Faiss.ntotal. simpl.
    split; [intros [? ?]; discriminate | lia].
  - intros v Hv. inversion Hv.
Qed.

Lemma init_consistent (size : Z) : consistent (__init__ size).
Proof.
  split; [exact I|]. split; simpl.
  - intros pos. unfold total_embeddings. simpl. split; [intros [? ?]; discriminate | lia].
  - intros v Hv. inversion Hv.
Qed.

Lemma add_embeddings_consistent (self : FAISSService F) (x : ndarray F)
    (ids : list string) (md : option (list meta)) :
  ndarray_wf x -> consistent self -> consistent (add_embeddings self x ids md).1.
Proof.
  intros Hwf (Hflat & Hpos & Hlen).
  split; [apply add_embeddings_flat, Hflat|].
  destruct (decide (ncols x = embedding_size self /\ length (rows x) = length ids))
    as [[Hcols Hn]|Hbad].
  - rewrite add_embeddings_returns by assumption. simpl. split.
    + intros pos. rewrite record_ids_defined. simpl. rewrite Hpos.
      unfold total_embeddings, current_index, Faiss.ntotal. simpl.
      rewrite length_app, length_map.
      destruct (index self); simpl; lia.
    + intros v. unfold current_index at 1. simpl.
      rewrite elem_of_app. intros [Hv|Hv]; [apply Hlen, Hv|].
      apply list_elem_of_fmap in Hv as [r [-> Hr]]. rewrite length_map.
      unfold ndarray_wf in Hwf. rewrite Forall_forall in Hwf.
      rewrite (Hwf r Hr). exact Hcols.
  - rewrite add_embeddings_raises
      by (destruct (decide (ncols x = embedding_size self)); [right | left]; tauto).
    split; simpl.
    + intros pos. rewrite Hpos. unfold total_embeddings, current_index. simpl.
      destruct (index self); simpl; [tauto|]. unfold Faiss.ntotal. simpl. tauto.
    + exact Hlen.
Qed.

(** A batch: the array, the identifiers, the metadata. *)
Definition batch : Type := ndarray F * list string * option (list meta).

Definition add_all (self : FAISSService F) (batches : list batch) : FAISSService F :=
  foldl (fun s b => (add_embeddings s b.1.1 b.1.2 b.2).1) self batches.

(** X4. Whatever well-formed batches are offered to a new service, accepted or
    refused, with the index created beforehand (L2 or Cosine) or left to the
    first batch: the dimension of the service stays what it was constructed
    with, the positions that have an identifier are exactly [0 .. total-1],
    and every stored vector has the service's dimension. *)
Theorem add_all_consistent (size : Z) (start : FAISSService F) (batches : list batch) :
  start = __init__ size \/ start = (create_index (__init__ size) "L2").1
    \/ start = (create_index (__init__ size) "Cosine").1 ->
  Forall (fun b => ndarray_wf b.1.1) batches ->
  let self := add_all start batches in
  embedding_size self = size /\
  (forall pos : Z, is_Some (dict_get pos (id_mapping self))
                   <-> 0 <= pos < total_embeddings self) /\
  (forall ix v, index self = Some ix -> v ∈ Faiss.xb ix -> Z.of_nat (length v) = size).
Proof.
  intros Hstart Hwf self.
  assert (Hc : consistent self /\ embedding_size self = size).
  { subst self. unfold add_all.
    assert (H0 : consistent start /\ embedding_size start = size).
    { destruct Hstart as [-> | [-> | ->]]; split; try reflexivity;
        [apply init_consistent | apply create_index_consistent; auto
        | apply create_index_consistent; auto]. }
    clear Hstart. revert start H0.
    induction batches as [|b batches IH]; intros start [Hc Hs]; simpl; [auto|].
    apply Forall_cons in Hwf as [Hb Hwf].
    apply IH; [exact Hwf|]. split; [apply add_embeddings_consistent; assumption|].
    destruct (decide (ncols b.1.1 = embedding_size start
                      /\ length (rows b.1.1) = length b.1.2)) as [[H1 H2]|Hbad].
    - rewrite add_embeddings_returns by (assumption || apply Hc). exact Hs.
    - rewrite add_embeddings_raises
        by (destruct (decide (ncols b.1.1 = embedding_size start)); [right | left]; tauto).
      exact Hs. }
  destruct Hc as [(Hflat & Hpos & Hlen) Hs].
  split; [exact Hs|]. split; [exact Hpos|].
  intros ix v Hix Hv. rewrite <- Hs. apply Hlen.
  unfold current_index. rewrite Hix. exact Hv.
Qed.

(** ** How many results a search gives *)

Lemma ranked_positions (ix : Faiss.Index F) (q : list F) (r : F * Z) :
  r ∈ ranked ix q -> 0 <= r.2 < Faiss.ntotal ix.
Proof.
  intros Hr.
  assert (Hs : r ∈ Faiss.scan ix q).
  { unfold ranked in Hr. destruct (Faiss.kind ix);
      rewrite ?sorted_asc_perm, ?sorted_desc_perm in Hr; exact Hr. }
  unfold Faiss.scan in Hs. apply list_elem_of_lookup in Hs as [i Hi].
  rewrite list_lookup_imap in Hi.
  destruct (Faiss.xb ix !! i) as [v|] eqn:Hv; [|discriminate].
  simpl in Hi. injection Hi as <-. simpl.
  apply lookup_lt_Some in Hv. unfold Faiss.ntotal. lia.
Qed.

Lemma length_ranked (ix : Faiss.Index F) (q : list F) :
  length (ranked ix q) = length (Faiss.xb ix).
Proof.
  unfold ranked. destruct (Faiss.kind ix);
    rewrite ?length_sorted_asc, ?length_sorted_desc; apply Faiss.length_scan.
Qed.

Lemma mapM_hit_raw_all (self : FAISSService F) (found : list (F * Z)) :
  (forall r, r ∈ found -> is_Some (dict_get r.2 (id_mapping self))) ->
  exists results, mapM (hit self false) found = Return results /\
    length (concat results) = length found.
Proof.
  induction found as [|r found IH]; intros Hall; simpl; [eauto|].
  destruct IH as (outs & Houts & Hlen).
  { intros r' Hr'. apply Hall. by right. }
  destruct (Hall r) as [id Hid]; [by left|].
  unfold hit at 1. rewrite Hid, Houts. simpl.
  eexists. split; [reflexivity|]. simpl. lia.
Qed.

(** X5. On a consistent service holding [N > 0] vectors, a search for [k > 0]
    raw values with a query of the service's dimension returns exactly
    [min k N] results: no position that faiss returns lacks an identifier. *)
Theorem search_result_count (self : FAISSService F) (q : list F) (k : Z) :
  consistent self ->
  0 < total_embeddings self ->
  0 < k ->
  Z.of_nat (length q) = embedding_size self ->
  exists res, search self q k false = Return res /\
    Z.of_nat (length res) = Z.min k (total_embeddings self).
Proof.
  intros (Hflat & Hpos & _) HN Hk Hq.
  unfold total_embeddings, flat_index, search in *.
  destruct (index self) as [ix|]; [|lia]. destruct Hflat as [Ht Hd].
  destruct (Faiss.ntotal ix =? 0) eqn:Hz; [lia|].
  rewrite decide_False by tauto.
  rewrite search_ranked by (rewrite ?length_map; congruence || lia).
  simpl.
  destruct (mapM_hit_raw_all self
              (take (Z.to_nat (Z.min k (Faiss.ntotal ix))) (ranked ix (map f_to_f32 q))))
    as (results & -> & Hlen).
  { intros r Hr. apply Hpos. apply elem_of_take in Hr as (i & Hr & _).
    apply (ranked_positions ix (map f_to_f32 q)). apply list_elem_of_lookup. eauto. }
  simpl. eexists. split; [reflexivity|].
  rewrite Hlen, length_take, length_ranked. unfold Faiss.ntotal in *. lia.
Qed.

(** ** Rebuilding *)

Lemma record_ids_metadata_absent (cs : Z) (md : option (list meta)) (ids : list string)
    (id : string) :
  forall (i : nat) (maps : dict Z string * dict string meta),
    id ∉ ids -> dict_get id (record_ids cs md i ids maps).2 = dict_get id maps.2.
Proof.
  induction ids as [|id0 ids IH]; intros i maps Hid; simpl; [reflexivity|].
  apply not_elem_of_cons in Hid as [Hne Hid].
  rewrite IH by exact Hid. simpl.
  destruct md as [[|m0 l0]|]; try reflexivity.
  destruct ((m0 :: l0) !! i); [|reflexivity].
  apply dict_get_set_ne. congruence.
Qed.

(** X6. Rebuilding over a service that was in use: for a batch of shape [n, D]
    with [n] identifiers, the build returns, the new index holds the [n]
    vectors at positions [0 .. n-1] under their identifiers, and the snapshot
    written loads back to the service as built; but the identifiers the old
    mapping had at positions [n] and beyond, and the metadata of images that
    are not in the batch, are still there. *)
Theorem build_keeps_old_entries (self : FAISSService F) (x : ndarray F)
    (ids : list string) (md : list meta) (disk : snapshot F) :
  ncols x = embedding_size self ->
  length (rows x) = length ids ->
  let out := build self x ids md disk in
  out.2 = Return tt /\
  total_embeddings out.1.1 = Z.of_nat (length ids) /\
  (forall (j : nat) (id : string), ids !! j = Some id ->
     dict_get (Z.of_nat j) (id_mapping out.1.1) = Some id) /\
  (forall pos : Z, Z.of_nat (length ids) <= pos ->
     dict_get pos (id_mapping out.1.1) = dict_get pos (id_mapping self)) /\
  (forall id : string, id ∉ ids ->
     dict_get id (metadata out.1.1) = dict_get id (metadata self)) /\
  (forall other, load_index other out.1.2 = (out.1.1, Return true)).
Proof.
  intros Hcols Hn out. subst out. unfold build. simpl.
  rewrite add_embeddings_returns; [|split; reflexivity | exact Hcols | exact Hn]. simpl.
  split; [reflexivity|]. split; [|split; [|split; [|split]]].
  - unfold total_embeddings, Faiss.ntotal. simpl. rewrite length_map. lia.
  - intros j id Hj.
    apply (record_ids_position 0 (Some md) ids 0%nat _ j id Hj).
  - intros pos Hpos. rewrite record_ids_other by (unfold Faiss.ntotal; simpl; lia).
    reflexivity.
  - intros id Hid. rewrite record_ids_metadata_absent by exact Hid. reflexivity.
  - intros other. reflexivity.
Qed.

End Service.

(** ** Instances, in binary64 arithmetic *)

Definition l2_three_index : Faiss.Index float :=
  Faiss.mkIndex 2 Faiss.FlatL2 true (map (map round_f32) (rows three_vectors)).

Lemma batch_search_is_search_witness :
  batch_search l2_three three_vectors 2
  = mapM (fun q => search l2_three q 2 true) (rows three_vectors).
Proof.
  apply (batch_search_is_search l2_three l2_three_index three_vectors 2);
    [reflexivity | reflexivity | reflexivity | apply three_vectors_wf | reflexivity | lia].
Defined.

Example batch_search_three :
  batch_search l2_three three_vectors 2
  = Return [[("a", 1%float); ("c", (2 / 3)%float)];
            [("b", 1%float); ("c", (2 / 3)%float)];
            [("c", 1%float); ("a", (2 / 3)%float)]].
Proof. vm_compute. reflexivity. Qed.

(** A batch of the wrong width, refused, between two that are accepted. *)
Definition mixed_batches : list (batch (F := float)) :=
  [(three_vectors, ["a"; "b"; "c"], None);
   (mk_ndarray 3 [[1; 0; 0]]%float, ["d"], None);
   (mk_ndarray 2 [[0; 1]]%float, ["e"], Some [tagged "red"])].

Lemma add_all_consistent_witness :
  let self := add_all l2_empty mixed_batches in
  embedding_size self = 2 /\
  (forall pos : Z, is_Some (dict_get pos (id_mapping self))
                   <-> 0 <= pos < total_embeddings self) /\
  (forall ix v, index self = Some ix -> v ∈ Faiss.xb ix -> Z.of_nat (length v) = 2).
Proof.
  apply (add_all_consistent 2 l2_empty mixed_batches).
  - right. left. reflexivity.
  - repeat (apply Forall_cons_2;
              [unfold ndarray_wf; simpl;
               repeat (apply Forall_cons_2; [reflexivity|]); apply Forall_nil_2|]).
    apply Forall_nil_2.
Defined.

Example add_all_mixed_total : total_embeddings (add_all l2_empty mixed_batches) = 4.
Proof. reflexivity. Qed.

Lemma l2_three_consistent : consistent l2_three.
Proof.
  apply add_embeddings_consistent; [apply three_vectors_wf|].
  apply create_index_consistent. left. reflexivity.
Qed.

Lemma search_result_count_witness :
  exists res, search l2_three [1; 0]%float 10 false = Return res /\
    Z.of_nat (length res) = Z.min 10 (total_embeddings l2_three).
Proof.
  apply (search_result_count l2_three [1; 0]%float 10);
    [apply l2_three_consistent | reflexivity | lia | reflexivity].
Defined.

(** A disk without a saved index. *)
Definition no_files : snapshot float := {| index_file := None; metadata_file := None |}.

Lemma save_load_roundtrip_witness :
  load_index (__init__ 7) (save_index l2_three no_files).1
  = (l2_three, Return true).
Proof.
  destruct (save_load_roundtrip l2_three (__init__ 7) no_files) as [_ Hload].
  apply (Hload l2_three_index). reflexivity.
Defined.

Lemma search_empty_then_dimension_witness :
  search l2_empty [1; 0; 0]%float 5 true = Return [] /\
  search l2_three [1; 0; 0]%float 5 true = Raise QueryDimensionMismatch.
Proof.
  split.
  - apply (search_empty_then_dimension l2_empty [1; 0; 0]%float 5 true). reflexivity.
  - apply (search_empty_then_dimension l2_three [1; 0; 0]%float 5 true); discriminate.
Defined.

(** Rebuilding the three-vector service with a single vector. *)
Lemma build_keeps_old_entries_witness :
  let out := build l2_three (mk_ndarray 2 [[0; 1]]%float) ["z"] [tagged "red"]
               no_files in
  out.2 = Return tt /\
  total_embeddings out.1.1 = 1 /\
  dict_get 2 (id_mapping out.1.1) = dict_get 2 (id_mapping l2_three).
Proof.
  destruct (build_keeps_old_entries l2_three (mk_ndarray 2 [[0; 1]]%float) ["z"]
              [tagged "red"] no_files eq_refl eq_refl)
    as (Hret & Htotal & _ & Hold & _).
  split; [exact Hret|]. split; [exact Htotal|]. apply Hold. simpl. lia.
Defined.

Example build_old_identifier :
  dict_get 2 (id_mapping (build l2_three (mk_ndarray 2 [[0; 1]]%float) ["z"] [tagged "red"]
                            no_files).1.1) = Some "c".
Proof. reflexivity. Qed.

End FaissMore.

(* ===================================================================== *)
(** * The recommendation service: histories, counters and statistics      *)
(* ===================================================================== *)

Module RecMore.
Import RecSvc PyFacts.

(** [get_stats()].  Strings compare as Python compares them, character by
    character. *)
Record stats : Type := mkStats {
  total_interactions : Z;
  unique_users : Z;
  unique_products : Z;
  products_with_cooccurrence : Z;
  top_pairs : list (string * string * Z)
}.

(** [all_pairs]: each recorded cell [(prod_a, prod_b)] with [prod_a < prod_b],
    row by row. *)
Definition all_pairs (m : dict string (dict string Z)) : list (string * string * Z) :=
  concat (map (fun row : string * dict string Z =>
                 omap (fun cellv : string * Z =>
                         if String.ltb row.1 cellv.1
                         then Some (row.1, cellv.1, cellv.2) else None)
                      row.2) m).

Definition get_stats (self : RecommendationService) : stats :=
  {| total_interactions :=
       foldr (fun interactions acc => Z.of_nat (length interactions) + acc) 0
             (dict_values (user_interactions self));
     unique_users := Z.of_nat (length (user_interactions self));
     unique_products := Z.of_nat (length (product_popularity self));
     products_with_cooccurrence := Z.of_nat (length (co_occurrence_matrix self));
     top_pairs :=
       slice_to (sorted_desc (fun t : string * string * Z => t.2) Z.ltb
                   (all_pairs (co_occurrence_matrix self))) 10 |}.

(** The batch route of the API ([register_batch_interactions]): the calls
    one after the other, the count of the batch as answer. *)
Definition register_batch_interactions (self : RecommendationService) (interactions : list call)
  : RecommendationService * Z :=
  (foldl step self interactions, Z.of_nat (length interactions)).

(** ** One call *)

Lemma step_history (self : RecommendationService) (c : call) (u : string) :
  history (step self c) u =
  if decide (c_user c = u) then history self u ++ [(c_product c, c_now c)]
  else history self u.
Proof.
  unfold history, step. simpl. rewrite dict_get_set.
  destruct (decide (c_user c = u)) as [<-|]; reflexivity.
Qed.

Lemma step_popularity (self : RecommendationService) (c : call) (p : string) :
  popularity (step self c) p =
  popularity self p + (if decide (c_product c = p) then 1 else 0).
Proof.
  unfold popularity, step. simpl. rewrite dict_get_set.
  destruct (decide (c_product c = p)) as [<-|]; simpl; lia.
Qed.

Lemma run_snoc (calls : list call) (c : call) : run (calls ++ [c]) = step (run calls) c.
Proof. unfold run. rewrite foldl_app. reflexivity. Qed.

(** ** Histories and popularity are the calls *)

(** X7. After any sequence of calls, the history of a user is that user's calls,
    in call order, with the clock readings of the calls; the popularity of a
    product is the number of calls that name it; and the length returned by a
    further call of the user is the number of the user's calls, that one
    included. *)
Theorem history_and_popularity_are_calls (calls : list call) (u p : string) :
  history (run calls) u
    = map (fun c => (c_product c, c_now c)) (filter (fun c => c_user c = u) calls) /\
  popularity (run calls) p = Z.of_nat (length (filter (fun c => c_product c = p) calls)) /\
  (forall kind now,
     (register_interaction (run calls) u p kind now).2
     = Z.of_nat (length (filter (fun c => c_user c = u) calls)) + 1).
Proof.
  assert (Hh : history (run calls) u
               = map (fun c => (c_product c, c_now c)) (filter (fun c => c_user c = u) calls)).
  { induction calls as [|c calls IH] using rev_ind; [reflexivity|].
    rewrite run_snoc, step_history, IH, filter_app, map_app, filter_cons, filter_nil.
    destruct (decide (c_user c = u)); simpl; [reflexivity|].
    rewrite !app_nil_r. reflexivity. }
  split; [exact Hh|]. split.
  - clear Hh. induction calls as [|c calls IH] using rev_ind; [reflexivity|].
    rewrite run_snoc, step_popularity, IH, filter_app, length_app, filter_cons, filter_nil.
    destruct (decide (c_product c = p)); simpl; lia.
  - intros kind now. simpl. fold (history (run calls) u).
    rewrite length_app, Hh, length_map. simpl. lia.
Qed.

(** ** The figures of [get_stats] *)

Definition total_length {A} (d : dict string (list A)) : Z :=
  foldr (fun interactions acc => Z.of_nat (length interactions) + acc) 0 (dict_values d).

Lemma total_length_cons {A} (k : string) (l : list A) (d : dict string (list A)) :
  total_length ((k, l) :: d) = Z.of_nat (length l) + total_length d.
Proof. reflexivity. Qed.

Lemma total_length_set {A} (k : string) (e : A) (d : dict string (list A)) :
  total_length (dict_set k (default [] (dict_get k d) ++ [e]) d) = total_length d + 1.
Proof.
  induction d as [|[k0 l0] d IH]; [reflexivity|].
  simpl dict_get. simpl dict_set.
  destruct (decide (k0 = k)) as [->|].
  - rewrite !total_length_cons. simpl. rewrite length_app. simpl. lia.
  - rewrite !total_length_cons, IH. lia.
Qed.

(** The keys of a dict after an assignment: a new key goes last. *)
Lemma dict_set_keys {V} (k : string) (v : V) (d : dict string V) :
  (dict_set k v d).*1 = if decide (k ∈ d.*1) then d.*1 else d.*1 ++ [k].
Proof.
  induction d as [|[k0 v0] d IH]; [reflexivity|].
  cbn [dict_set]. rewrite (fmap_cons fst _ d). cbn [fst].
  destruct (decide (k0 = k)) as [->|Hne].
  - rewrite (fmap_cons fst _ d). cbn [fst].
    rewrite decide_True by left. reflexivity.
  - rewrite (fmap_cons fst _ (dict_set k v d)), IH. cbn [fst].
    destruct (decide (k ∈ d.*1)) as [Hin|Hout].
    + rewrite decide_True by (right; exact Hin). reflexivity.
    + rewrite decide_False; [reflexivity|].
      intros Hin. apply elem_of_cons in Hin as [->|Hin]; tauto.
Qed.

(** The keys a sequence of assignments leaves: each key once, in the order
    of first assignment. *)
Fixpoint first_seen (seen l : list string) : list string :=
  match l with
  | [] => seen
  | k :: l' => first_seen (if decide (k ∈ seen) then seen else seen ++ [k]) l'
  end.

Lemma first_seen_spec (l : list string) :
  forall seen, NoDup seen ->
    NoDup (first_seen seen l) /\
    (forall k, k ∈ first_seen seen l <-> k ∈ seen \/ k ∈ l).
Proof.
  induction l as [|k l IH]; intros seen Hseen; simpl.
  - split; [exact Hseen|]. intros k. rewrite elem_of_nil. tauto.
  - destruct (decide (k ∈ seen)) as [Hin|Hout].
    + destruct (IH seen Hseen) as [Hnd Hel]. split; [exact Hnd|].
      intros k'. rewrite Hel, elem_of_cons. split; [tauto|].
      intros [?|[->|?]]; tauto.
    + destruct (IH (seen ++ [k])) as [Hnd Hel].
      { apply NoDup_app. split; [exact Hseen|]. split; [|apply NoDup_singleton].
        intros x Hx Hx'. apply list_elem_of_singleton in Hx'. congruence. }
      split; [exact Hnd|].
      intros k'. rewrite Hel, elem_of_app, list_elem_of_singleton, elem_of_cons. tauto.
Qed.

Lemma run_keys (calls : list call) :
  forall self,
    (user_interactions (foldl step self calls)).*1
      = first_seen (user_interactions self).*1 (map c_user calls) /\
    (product_popularity (foldl step self calls)).*1
      = first_seen (product_popularity self).*1 (map c_product calls).
Proof.
  induction calls as [|c calls IH]; intros self; simpl; [auto|].
  destruct (IH (step self c)) as [-> ->].
  unfold step. simpl. rewrite !dict_set_keys. auto.
Qed.

(** X8. After any sequence of calls on a new service, [get_stats] reports as
    total the number of calls, as unique users the number of distinct users
    of the calls and as unique products the number of distinct products; the
    keys of the two dicts are the users and the products in order of first
    appearance. *)
Theorem get_stats_counts_calls (calls : list call) :
  total_interactions (get_stats (run calls)) = Z.of_nat (length calls) /\
  unique_users (get_stats (run calls))
    = Z.of_nat (length (remove_dups (map c_user calls))) /\
  unique_products (get_stats (run calls))
    = Z.of_nat (length (remove_dups (map c_product calls))) /\
  (user_interactions (run calls)).*1 = first_seen [] (map c_user calls) /\
  (product_popularity (run calls)).*1 = first_seen [] (map c_product calls) /\
  (register_batch_interactions __init__ calls).2
    = total_interactions (get_stats (register_batch_interactions __init__ calls).1).
Proof.
  assert (Hcount : forall l, length (first_seen [] l) = length (remove_dups l)).
  { intros l. apply Permutation_length, NoDup_Permutation.
    - apply first_seen_spec, NoDup_nil_2.
    - apply NoDup_remove_dups.
    - intros k. destruct (first_seen_spec l [] (NoDup_nil_2)) as [_ ->].
      rewrite elem_of_remove_dups, elem_of_nil. tauto. }
  assert (Htotal : total_length (user_interactions (run calls)) = Z.of_nat (length calls)).
  { induction calls as [|c calls IH] using rev_ind; [reflexivity|].
    rewrite run_snoc. unfold step at 1. simpl.
    rewrite total_length_set, length_app, IH. simpl. lia. }
  destruct (run_keys calls __init__) as [Hu Hp]. fold (run calls) in Hu, Hp.
  simpl in Hu, Hp.
  split; [exact Htotal|]. split; [|split; [|split; [exact Hu|split; [exact Hp|]]]].
  - simpl. rewrite <- (length_fmap fst), Hu, Hcount. reflexivity.
  - simpl. rewrite <- (length_fmap fst), Hp, Hcount. reflexivity.
  - unfold register_batch_interactions. symmetry. exact Htotal.
Qed.

(** ** The shape of the matrix and of the popularity counter *)

Lemma elem_of_dict_set {K V} `{EqDecision K} (k : K) (v : V) (d : dict K V) (x : K * V) :
  x ∈ dict_set k v d -> x = (k, v) \/ x ∈ d.
Proof.
  induction d as [|[k0 v0] d IH]; simpl.
  - intros Hx. apply list_elem_of_singleton in Hx. auto.
  - destruct (decide (k0 = k)) as [->|]; intros Hx;
      apply elem_of_cons in Hx as [->|Hx]; auto.
    + right. by right.
    + right. by left.
    + destruct (IH Hx); auto. right. by right.
Qed.

(** Every dict has one entry per key, and every count recorded is at least 1. *)
Definition counts_wf (d : dict string Z) : Prop :=
  NoDup d.*1 /\ forall b c, (b, c) ∈ d -> 1 <= c.

Definition matrix_wf (m : dict string (dict string Z)) : Prop :=
  NoDup m.*1 /\ forall a row, (a, row) ∈ m -> row <> [] /\ counts_wf row.

Lemma counts_wf_incr (b : string) (d : dict string Z) :
  (d = [] \/ counts_wf d) ->
  counts_wf (dict_set b (default 0 (dict_get b d) + 1) d).
Proof.
  intros Hd.
  assert (Hwf : counts_wf d).
  { destruct Hd as [->|Hd]; [|exact Hd]. split; [apply NoDup_nil_2|].
    intros ? ? H. inversion H. }
  destruct Hwf as [Hnd Hpos]. split; [apply dict_set_keys_NoDup, Hnd|].
  intros b' c' Hin. apply elem_of_dict_set in Hin as [Heq|Hin]; [|eauto].
  injection Heq as -> ->.
  destruct (dict_get b d) as [c|] eqn:Hc; simpl; [|lia].
  apply dict_get_elem_of in Hc. specialize (Hpos _ _ Hc). lia.
Qed.

Lemma dict_set_nonempty {K V} `{EqDecision K} (k : K) (v : V) (d : dict K V) :
  dict_set k v d <> [].
Proof. destruct d as [|[k0 v0] d]; simpl; [discriminate|]. destruct (decide _); discriminate. Qed.

Lemma bump_wf (a b : string) (m : dict string (dict string Z)) :
  matrix_wf m -> matrix_wf (bump a b m).
Proof.
  intros [Hnd Hrows]. unfold bump. split; [apply dict_set_keys_NoDup, Hnd|].
  intros a' row' Hin. apply elem_of_dict_set in Hin as [Heq|Hin]; [|eauto].
  injection Heq as -> ->.
  split; [apply dict_set_nonempty|]. apply counts_wf_incr.
  destruct (dict_get a m) as [row|] eqn:Hrow; simpl; [right | left; reflexivity].
  apply dict_get_elem_of in Hrow. apply Hrows in Hrow. tauto.
Qed.

Lemma run_wf (calls : list call) :
  matrix_wf (co_occurrence_matrix (run calls)) /\ counts_wf (product_popularity (run calls)).
Proof.
  induction calls as [|c calls [IHm IHp]] using rev_ind.
  - split; split; try apply NoDup_nil_2; intros ? ? H; inversion H.
  - rewrite run_snoc. unfold step. simpl. split.
    + generalize (recent_products
         (default [] (dict_get (c_user c) (user_interactions (run calls)))
          ++ [(c_product c, c_now c)])).
      intros l. revert IHm. generalize (co_occurrence_matrix (run calls)).
      induction l as [|o l IHl]; intros m Hm; simpl; [exact Hm|].
      apply IHl. unfold co_occur. case_decide; [|exact Hm].
      apply bump_wf, bump_wf, Hm.
    + apply counts_wf_incr. right. exact IHp.
Qed.

Lemma foldl_max_le (x : Z) (l : list Z) :
  x <= foldl Z.max x l /\ forall y, y ∈ l -> y <= foldl Z.max x l.
Proof.
  revert x. induction l as [|z l IH]; intros x; simpl.
  - split; [lia|]. intros y Hy. inversion Hy.
  - destruct (IH (Z.max x z)) as [H1 H2]. split; [lia|].
    intros y Hy. apply elem_of_cons in Hy as [->|Hy]; [lia | auto].
Qed.

Lemma mapM_total {A B} (f : A -> result B) (g : A -> B) (l : list A) :
  (forall x, x ∈ l -> f x = Return (g x)) -> mapM f l = Return (map g l).
Proof.
  induction l as [|x l IH]; intros Hf; simpl; [reflexivity|].
  rewrite Hf by left. simpl. rewrite IH by (intros; apply Hf; by right). reflexivity.
Qed.

Lemma elem_of_all_pairs (m : dict string (dict string Z)) (a b : string) (c : Z) :
  (a, b, c) ∈ all_pairs m ->
  String.ltb a b = true /\ exists row, (a, row) ∈ m /\ (b, c) ∈ row.
Proof.
  unfold all_pairs. rewrite list_elem_of_In, in_concat.
  intros (l & Hl & Hin). apply in_map_iff in Hl as ([a' row] & <- & Hrow).
  apply list_elem_of_In in Hin. apply list_elem_of_In in Hrow.
  apply list_elem_of_omap in Hin as ([b' c'] & Hcell & Hsome). simpl in *.
  destruct (String.ltb a' b') eqn:Hlt; [|discriminate].
  injection Hsome as -> -> ->. eauto.
Qed.

(** X9. After any sequence of calls, [get_stats] lists at most 10 pairs,
    largest count first; each listed pair [(a, b, c)] has [a] before [b] in
    string order, so no pair is listed in both directions, and [c >= 1] is
    the co-occurrence count of the pair, the same in both directions. *)
Theorem top_pairs_of_run (calls : list call) :
  (length (top_pairs (get_stats (run calls))) <= 10)%nat /\
  descending (fun t : string * string * Z => t.2) (top_pairs (get_stats (run calls))) /\
  (forall a b c, (a, b, c) ∈ top_pairs (get_stats (run calls)) ->
     String.ltb a b = true /\
     ~ (b, a, c) ∈ top_pairs (get_stats (run calls)) /\
     co_occurrence (run calls) a b = c /\
     co_occurrence (run calls) b a = c /\
     1 <= c).
Proof.
  destruct (run_wf calls) as [[Hnd Hrows] _].
  destruct (foldl_step_invariant calls __init__) as [Hsym _].
  { split; intros x; reflexivity. }
  fold (run calls) in Hsym.
  unfold get_stats. simpl top_pairs. rewrite slice_to_nonneg by lia.
  set (sorted := sorted_desc (fun t : string * string * Z => t.2) Z.ltb
                   (all_pairs (co_occurrence_matrix (run calls)))).
  assert (Hin : forall a b c, (a, b, c) ∈ take (Z.to_nat 10) sorted ->
            String.ltb a b = true /\ co_occurrence (run calls) a b = c /\ 1 <= c).
  { intros a b c Ht. apply elem_of_take in Ht as (i & Hi & _).
    assert (Hs : (a, b, c) ∈ sorted) by (apply list_elem_of_lookup; eauto).
    unfold sorted in Hs. rewrite sorted_desc_perm in Hs.
    apply elem_of_all_pairs in Hs as (Hlt & row & Hrow & Hcell).
    split; [exact Hlt|].
    destruct (Hrows _ _ Hrow) as (_ & Hndr & Hpos).
    unfold co_occurrence, cell.
    rewrite (elem_of_dict_get a row _ Hnd Hrow), (elem_of_dict_get b c row Hndr Hcell).
    split; [reflexivity | eapply Hpos, Hcell]. }
  split; [rewrite length_take; lia|]. split.
  - apply descending_take, sorted_desc_descending.
  - intros a b c Ht. destruct (Hin a b c Ht) as (Hlt & Hab & Hc).
    split; [exact Hlt|]. split; [|split; [exact Hab|split; [|exact Hc]]].
    + intros Hba. apply Hin in Hba as (Hlt' & _).
      unfold String.ltb in *.
      destruct (String.compare a b) eqn:Hcmp; try discriminate.
      rewrite String.compare_antisym, Hcmp in Hlt'. discriminate.
    + unfold co_occurrence in *. rewrite <- (Hsym a b). exact Hab.
Qed.

Lemma dict_get_absent {V} (k : string) (d : dict string V) :
  k ∉ d.*1 -> dict_get k d = None.
Proof.
  induction d as [|[k0 v0] d IH]; [reflexivity|].
  rewrite (fmap_cons fst _ d). cbn [fst dict_get]. intros Hk.
  apply not_elem_of_cons in Hk as [Hne Hk].
  rewrite decide_False by congruence. apply IH, Hk.
Qed.

Lemma last_map {A B} (f : A -> B) (l : list A) : last (map f l) = f <$> last l.
Proof.
  induction l as [|x l IH]; [reflexivity|].
  destruct l as [|y l]; [reflexivity|]. exact IH.
Qed.

(** After any sequence of calls, the anchor of a request that names no
    product and a user who made calls is the product of the user's last call. *)
Lemma anchor_of_run (calls : list call) (u : string) (c : call) (product_id : option string) :
  u <> "" ->
  truthy product_id = false ->
  last (filter (fun c => c_user c = u) calls) = Some c ->
  anchor (run calls) product_id (Some u) = Some (c_product c).
Proof.
  intros Hu Hp Hlast. unfold anchor. rewrite Hp. simpl.
  rewrite bool_decide_false by exact Hu. simpl.
  assert (Hh : history (run calls) u
               = map (fun c => (c_product c, c_now c)) (filter (fun c => c_user c = u) calls)).
  { clear Hlast. induction calls as [|c' calls IH] using rev_ind; [reflexivity|].
    rewrite run_snoc, step_history, IH, filter_app, map_app, filter_cons, filter_nil.
    destruct (decide (c_user c' = u)); simpl; [reflexivity|].
    rewrite !app_nil_r. reflexivity. }
  unfold history in Hh.
  destruct (dict_get u (user_interactions (run calls))) as [h|]; simpl in Hh.
  - rewrite Hh, last_map, Hlast. reflexivity.
  - destruct (filter _ calls); [discriminate Hlast | discriminate Hh].
Qed.

Section Recommendations.
Context {F : Type} `{!Float F}.

(** The recommendation made of a product, its count and the largest count. *)
Definition co_viewed (max_count : Z) (oc : string * Z) : recommendation (F := F) :=
  (oc.1, f_div (f_of_int oc.2) (f_of_int max_count), "Visto junto " +:+ pretty oc.2 +:+ " veces").

(** The row of a product, and its largest count (0 for no row). *)
Definition row_of (self : RecommendationService) (p : string) : dict string Z :=
  default [] (dict_get p (co_occurrence_matrix self)).

Definition row_max (row : dict string Z) : Z :=
  match row.*2 with
  | [] => 0
  | c :: l => foldl Z.max c l
  end.

Lemma row_of_run (calls : list call) (p : string) :
  NoDup (row_of (run calls) p).*1 /\
  dict_get p (row_of (run calls) p) = None /\
  (forall q c, (q, c) ∈ row_of (run calls) p -> 1 <= c <= row_max (row_of (run calls) p)) /\
  0 <= row_max (row_of (run calls) p).
Proof.
  destruct (run_wf calls) as [[_ Hrows] _].
  destruct (foldl_step_invariant calls __init__) as [_ Hself].
  { split; intros x; reflexivity. }
  fold (run calls) in Hself. specialize (Hself p). unfold cell in Hself.
  unfold row_of.
  destruct (dict_get p (co_occurrence_matrix (run calls))) as [row|] eqn:Hrow; simpl.
  - apply dict_get_elem_of in Hrow. destruct (Hrows _ _ Hrow) as (Hne & Hnd & Hpos).
    assert (Hall : forall q c, (q, c) ∈ row -> 1 <= c <= row_max row).
    { intros q c Hin. split; [eapply Hpos, Hin|].
      unfold row_max. destruct row as [|[q0 c0] row']; [inversion Hin|].
      rewrite (fmap_cons snd _ row'). cbn [snd].
      destruct (foldl_max_le c0 row'.*2) as [H0 Hl].
      apply elem_of_cons in Hin as [Heq|Hin]; [injection Heq as -> ->; exact H0|].
      apply Hl. apply list_elem_of_fmap. exists (q, c). auto. }
    split; [exact Hnd|]. split; [exact Hself|]. split; [exact Hall|].
    destruct row as [|[q0 c0] row']; [congruence|].
    pose proof (Hall q0 c0 ltac:(left)). lia.
  - split; [apply NoDup_nil_2|]. split; [reflexivity|].
    split; [intros q c H; inversion H | reflexivity].
Qed.

(** What the collaborative strategy computes after any sequence of calls. *)
Lemma collaborative_run_top (calls : list call) (p : string) (n : Z) :
  0 <= n ->
  get_collaborative_recommendations (run calls) p n
  = Return (map (co_viewed (row_max (row_of (run calls) p)))
              (take (Z.to_nat n) (sorted_desc snd Z.ltb (row_of (run calls) p)))).
Proof.
  intros Hn. destruct (row_of_run calls p) as (_ & _ & Hall & _).
  unfold get_collaborative_recommendations, dict_mem, row_of in *.
  destruct (dict_get p (co_occurrence_matrix (run calls))) as [row|];
    [|simpl; rewrite take_nil; reflexivity].
  simpl in *. destruct row as [|[q0 c0] row']; [simpl; rewrite take_nil; reflexivity|].
  set (row := (q0, c0) :: row') in *.
  rewrite slice_to_nonneg by exact Hn.
  assert (Hmax : max_int (dict_values row) = Return (row_max row)) by reflexivity.
  rewrite Hmax. cbn [bind].
  rewrite (mapM_total _ (co_viewed (row_max row))); [reflexivity|].
  intros [q c] Hin. unfold co_viewed, int_truediv. simpl.
  pose proof (Hall q0 c0 ltac:(left)) as HM.
  destruct (row_max row =? 0) eqn:Hz; [lia|]. reflexivity.
Qed.


(** ** Requests by user *)

(** X11. After any sequence of calls, a request that names no product and a
    user who made calls is the request on the product of the user's last
    call, whatever the strategy. *)
Theorem request_by_user (calls : list call) (faiss_service : FaissSvc.FAISSService F)
    (u : string) (c : call) (n : Z) (strategy : string) :
  u <> "" ->
  last (filter (fun c => c_user c = u) calls) = Some c ->
  anchor (run calls) None (Some u) = Some (c_product c) /\
  get_recommendations (run calls) faiss_service None (Some u) n strategy
  = get_recommendations (run calls) faiss_service (Some (c_product c)) None n strategy.
Proof.
  intros Hu Hlast.
  pose proof (anchor_of_run calls u c None Hu eq_refl Hlast) as Ha.
  split; [exact Ha|]. unfold get_recommendations. rewrite Ha. reflexivity.
Qed.

(** ** The popularity fallback *)



(** ** The hybrid strategy *)

Lemma dict_set_fresh {V} (k : string) (v : V) (d : dict string V) :
  k ∉ d.*1 -> dict_set k v d = d ++ [(k, v)].
Proof.
  induction d as [|[k0 v0] d IH]; [reflexivity|].
  rewrite (fmap_cons fst _ d). cbn [fst dict_set]. intros Hk.
  apply not_elem_of_cons in Hk as [Hne Hk].
  rewrite decide_False by congruence. rewrite IH by exact Hk. reflexivity.
Qed.

(** The entry of [combined_scores] and the final recommendation made of a
    collaborative recommendation that has no visual counterpart. *)
Definition collab_only (w : F) (r : recommendation (F := F)) : string * scores :=
  (r.1.1, {| visual_score := f_of_int 0; collab_score := f_mul r.1.2 w; reasons := [r.2] |}).

Definition rescored (w : F) (r : recommendation (F := F)) : recommendation (F := F) :=
  (r.1.1, f_add (f_of_int 0) (f_mul r.1.2 w), r.2).

Lemma foldl_add_collab_fresh (w : F) (recs : list (recommendation (F := F))) :
  forall acc : dict string scores,
    NoDup (map (fun r : recommendation => r.1.1) recs) ->
    (forall r, r ∈ recs -> r.1.1 ∉ acc.*1) ->
    foldl (add_collab w) acc recs = acc ++ map (collab_only w) recs.
Proof.
  induction recs as [|[[q sc] reason] recs IH]; intros acc Hnd Hfresh; simpl.
  - rewrite app_nil_r. reflexivity.
  - apply NoDup_cons in Hnd as [Hq Hnd].
    assert (Hqa : q ∉ acc.*1) by (apply (Hfresh (q, sc, reason)); left).
    rewrite (dict_get_absent q acc Hqa), (dict_set_fresh q _ acc Hqa).
    rewrite IH; [rewrite <- app_assoc; reflexivity | exact Hnd |].
    intros r Hr. rewrite fmap_app, elem_of_app. intros [Hin|Hin].
    + apply (Hfresh r); [by right | exact Hin].
    + apply list_elem_of_singleton in Hin. simpl in Hin.
      apply Hq. apply list_elem_of_In, in_map_iff. exists r.
      split; [exact Hin | apply list_elem_of_In, Hr].
Qed.

(** X13. After any sequence of calls, for [n >= 0], the hybrid strategy is the
    collaborative strategy asked for [2n] products, each score [s] replaced
    by [0 + s * collaborative_weight] and the reason kept, sorted again by
    score, largest first, and cut at [n]: the visual weight and the vector
    index have no part in the answer. *)
Theorem hybrid_of_run (calls : list call) (faiss_service : FaissSvc.FAISSService F)
    (p : string) (n : Z) (visual_weight collaborative_weight : F) :
  0 <= n ->
  exists collab,
    get_collaborative_recommendations (run calls) p (n * 2) = Return collab /\
    get_hybrid_recommendations (run calls) faiss_service p n visual_weight collaborative_weight
    = Return (take (Z.to_nat n)
                (sorted_desc (fun r : recommendation => r.1.2) f_ltb
                   (map (rescored collaborative_weight) collab))).
Proof.
  intros Hn. destruct (row_of_run calls p) as (Hnd & _).
  eexists. split; [apply collaborative_run_top; lia|].
  unfold get_hybrid_recommendations.
  rewrite collaborative_run_top by lia. simpl.
  rewrite foldl_add_collab_fresh.
  - rewrite slice_to_nonneg by exact Hn. simpl. rewrite map_map. reflexivity.
  - rewrite map_map. simpl.
    change (map (fun x : string * Z => x.1)
              (take (Z.to_nat (n * 2)) (sorted_desc snd Z.ltb (row_of (run calls) p))))
      with ((take (Z.to_nat (n * 2)) (sorted_desc snd Z.ltb (row_of (run calls) p))).*1).
    rewrite fmap_take. eapply sublist_NoDup; [|apply sublist_take].
    rewrite sorted_desc_perm. exact Hnd.
  - intros r _ Hin. inversion Hin.
Qed.

End Recommendations.

(** ** Instances, in binary64 arithmetic *)

(** Two users: [u1] looks at [p1], [p2], [p3]; [u2] at [p3], then [p1]. *)
Definition two_users : list call :=
  [mkCall "u1" "p1" "view" 1; mkCall "u1" "p2" "view" 2; mkCall "u1" "p3" "purchase" 3;
   mkCall "u2" "p3" "view" 4; mkCall "u2" "p1" "like" 5].

Example two_users_stats :
  get_stats (run two_users)
  = {| total_interactions := 5; unique_users := 2; unique_products := 3;
       products_with_cooccurrence := 3;
       top_pairs := [("p1", "p3", 2); ("p2", "p3", 1); ("p1", "p2", 1)] |}.
Proof. reflexivity. Qed.

Example two_users_batch :
  register_batch_interactions __init__ two_users = (run two_users, 5).
Proof. reflexivity. Qed.


Example collaborative_two_users :
  get_collaborative_recommendations (F := float) (run two_users) "p1" 5
  = Return [("p3", 1%float, "Visto junto 2 veces"); ("p2", 0.5%float, "Visto junto 1 veces")].
Proof. vm_compute. reflexivity. Qed.

Lemma request_by_user_witness :
  get_recommendations (run two_users) catalogue None (Some "u2") 5 "collaborative"
  = get_recommendations (run two_users) catalogue (Some "p1") None 5 "collaborative".
Proof.
  apply (request_by_user two_users catalogue "u2" (mkCall "u2" "p1" "like" 5) 5
           "collaborative"); [discriminate | reflexivity].
Defined.


Example popular_two_users :
  get_recommendations (run two_users) catalogue None (Some "u9") 2 "visual"
  = Return [("p1", 1%float, "Producto popular"); ("p3", 1%float, "Producto popular")].
Proof. vm_compute. reflexivity. Qed.

Lemma hybrid_of_run_witness :
  exists collab,
    get_collaborative_recommendations (run two_users) "p1" (1 * 2) = Return collab /\
    get_hybrid_recommendations (run two_users) catalogue "p1" 1 0.75%float 0.5%float
    = Return (take (Z.to_nat 1)
                (sorted_desc (fun r : recommendation => r.1.2) f_ltb
                   (map (rescored 0.5%float) collab))).
Proof.
  apply (hybrid_of_run two_users catalogue "p1" 1 0.75%float 0.5%float). lia.
Defined.

Example hybrid_two_users :
  get_hybrid_recommendations (run two_users) catalogue "p1" 1 0.75%float 0.5%float
  = Return [("p3", 0.5%float, "Visto junto 2 veces")].
Proof. vm_compute. reflexivity. Qed.

End RecMore.
